(** * A shallow embedding of the JWT-routing load balancer

    The development follows package [balancer]: the token check
    [ValidateJWT], the pool of backends with its round-robin cursor, the
    routing decision [getBackendForRequest], the request handler
    [ServeHTTP], the [HealthCheck] loop tick by tick and the [GetStats]
    snapshot.

    What is left out: mutexes (every critical section is one atomic step of
    the model), the logger (no routing decision reads it), and the reverse
    proxy and the JWT library, which enter as oracles. *)

From stdpp Require Import base numbers list strings pretty.
From Stdlib Require Import ZArith Lia.

Local Open Scope Z_scope.

(** ** Go machine integers (64-bit platform) *)

Module GoInt.

Definition maxUint64 : Z := 2 ^ 64 - 1.
Definition maxInt : Z := 2 ^ 63 - 1.
Definition minInt : Z := - 2 ^ 63.

(** Arithmetic on [uint64] wraps modulo 2^64. *)
Definition wrap_uint64 (z : Z) : Z := z mod 2 ^ 64.

(** Arithmetic on [int] wraps into [minInt .. maxInt] (two's complement). *)
Definition wrap_int (z : Z) : Z := (z + 2 ^ 63) mod 2 ^ 64 - 2 ^ 63.

(** The conversions [int(x)] and [uint64(x)]. *)
Definition int_of_uint64 (x : Z) : Z := wrap_int x.
Definition uint64_of_int (x : Z) : Z := wrap_uint64 x.

(** [a % b]: the remainder truncated towards zero; [None] is the run-time
    panic on a zero divisor. *)
Definition go_rem (a b : Z) : option Z :=
  if b =? 0 then None else Some (Z.rem a b).

End GoInt.

Import GoInt.

(** ** Data model *)

(** [Backend] without its [Proxy] closure and its mutex. *)
Record Backend : Type := mkBackend {
  URL : string;
  IsAdmin : bool;
  IsAlive : bool;
  failCount : Z;        (* int *)
  RequestCount : Z      (* uint64 *)
}.

(** [LoadBalancer] without its mutex and logger. *)
Record LoadBalancer : Type := mkLoadBalancer {
  backends : list Backend;
  roundRobinCount : Z   (* uint64 *)
}.

(** A [*Backend] handed out by the balancer points at one element of
    [lb.backends]; the slice is never reallocated, so the position in the
    slice identifies the pointer. *)
Definition BackendRef : Type := nat.

Definition set_roundRobinCount (c : Z) (lb : LoadBalancer) : LoadBalancer :=
  {| backends := backends lb; roundRobinCount := c |}.

Definition set_backends (bs : list Backend) (lb : LoadBalancer)
  : LoadBalancer :=
  {| backends := bs; roundRobinCount := roundRobinCount lb |}.

(** [len(s)] as a Go [int]. *)
Definition len {A : Type} (s : list A) : Z := Z.of_nat (length s).

(** [s[idx]] with Go's bounds check; [None] is the index-out-of-range panic. *)
Definition index {A : Type} (s : list A) (idx : Z) : option A :=
  if idx <? 0 then None else s !! Z.to_nat idx.

(** ** Outcomes of an operation on the shared balancer *)

Inductive panic : Type :=
| IndexOutOfRange
| IntegerDivideByZero.

(** Either a returned value or a panic, each with the balancer state the
    call leaves behind (the HTTP server recovers a handler's panic, so the
    state survives it). *)
Inductive outcome (A : Type) : Type :=
| Ret (a : A) (lb : LoadBalancer)
| Panicked (p : panic) (lb : LoadBalancer).
Arguments Ret {A} a lb.
Arguments Panicked {A} p lb.

Definition state_of {A : Type} (o : outcome A) : LoadBalancer :=
  match o with
  | Ret _ lb => lb
  | Panicked _ lb => lb
  end.

Definition returned {A : Type} (o : outcome A) : option A :=
  match o with
  | Ret a _ => Some a
  | Panicked _ _ => None
  end.

(** ** NewLoadBalancer *)

(** The URLs are taken as already parsed ([url.Parse] failing ends the
    process before any balancer exists). *)
Definition NewLoadBalancer (backendURLs : list string) : LoadBalancer :=
  {| backends :=
       imap (fun (i : nat) (backendURL : string) =>
               {| URL := backendURL;
                  IsAdmin := Nat.eqb i 0;
                  IsAlive := true;
                  failCount := 0;
                  RequestCount := 0 |}) backendURLs;
     roundRobinCount := 0 |}.

(** ** getBackendForRequest *)

Inductive scan_result : Type :=
| Selected (idx : Z)
| NoneAlive
| ScanPanic (p : panic).

(** The loop [for i := 0; i < len(backends); i++]; [todo] counts the
    iterations that remain, [i] is the loop variable. *)
Fixpoint scanBackends (bs : list Backend) (nextIndex i : Z) (todo : nat)
  : scan_result :=
  match todo with
  | O => NoneAlive
  | S todo' =>
      match go_rem (wrap_int (nextIndex + i)) (len bs) with
      | None => ScanPanic IntegerDivideByZero
      | Some idx =>
          match index bs idx with
          | None => ScanPanic IndexOutOfRange
          | Some backend =>
              if IsAlive backend then Selected idx
              else scanBackends bs nextIndex (wrap_int (i + 1)) todo'
          end
      end
  end.

(** [atomic.AddUint64(&lb.roundRobinCount, 1)]: the new value. *)
Definition AddUint64_1 (c : Z) : Z := wrap_uint64 (c + 1).

Definition getBackendForRequest (role : string) (lb : LoadBalancer)
  : outcome (option BackendRef) :=
  if String.eqb role "Admin" then
    match index (backends lb) 0 with
    | None => Panicked IndexOutOfRange lb
    | Some adminBackend =>
        if IsAlive adminBackend then Ret (Some 0%nat) lb
        else Ret None lb
    end
  else
    let count := AddUint64_1 (roundRobinCount lb) in
    let lb' := set_roundRobinCount count lb in
    match go_rem count (uint64_of_int (len (backends lb'))) with
    | None => Panicked IntegerDivideByZero lb'
    | Some r =>
        let nextIndex := int_of_uint64 r in
        match scanBackends (backends lb') nextIndex 0
                           (length (backends lb')) with
        | Selected idx => Ret (Some (Z.to_nat idx)) lb'
        | NoneAlive => Ret None lb'
        | ScanPanic p => Panicked p lb'
        end
    end.

(** ** ValidateJWT *)

(** What [jwt.ParseWithClaims] hands back: an error, or the token with its
    [role] claim and its [Valid] flag.  Signature and key checks live inside
    the library call. *)
Inductive parse_result : Type :=
| ParseError (err : string)
| Parsed (role : string) (valid : bool).

(** [strings.HasPrefix] and [strings.TrimPrefix]. *)
Fixpoint strip_prefix (prefix s : string) : option string :=
  match prefix, s with
  | EmptyString, _ => Some s
  | String c prefix', String d s' =>
      if Ascii.eqb c d then strip_prefix prefix' s' else None
  | String _ _, EmptyString => None
  end.

Definition HasPrefix (s prefix : string) : bool :=
  match strip_prefix prefix s with Some _ => true | None => false end.

Definition TrimPrefix (s prefix : string) : string :=
  match strip_prefix prefix s with Some rest => rest | None => s end.

Definition valid_role (role : string) : bool :=
  String.eqb role "User" || String.eqb role "Client" || String.eqb role "Admin".

Section Handler.

(** The two external collaborators of the request path. *)
Variable ParseWithClaims : string -> parse_result.

(** A returned role is [inl role]; a returned error is [inr err]. *)
Definition ValidateJWT (tokenString : string) : string + string :=
  if String.eqb tokenString EmptyString then inr "no token provided"%string
  else
    let tokenString :=
      if HasPrefix tokenString "Bearer " then TrimPrefix tokenString "Bearer "
      else tokenString in
    match ParseWithClaims tokenString with
    | ParseError err => inr err
    | Parsed role valid =>
        if negb valid then inr "invalid token"%string
        else if negb (valid_role role)
             then inr ("invalid role claim: " +:+ role)
             else inl role
    end.

(** ** ServeHTTP *)

Record Request : Type := mkRequest {
  Authorization : string;   (* r.Header.Get("Authorization") *)
  Method : string;
  Path : string
}.

Record Response : Type := mkResponse {
  StatusCode : Z;
  Body : string
}.

Definition StatusOK : Z := 200.
Definition StatusUnauthorized : Z := 401.
Definition StatusBadGateway : Z := 502.
Definition StatusServiceUnavailable : Z := 503.

(** The transport under a backend's reverse proxy: it relays the backend's
    response or reports an error. *)
Inductive round_trip : Type :=
| TransportError (err : string)
| Relayed (resp : Response).

Variable RoundTrip : BackendRef -> Request -> round_trip.

(** [proxy.ErrorHandler] as installed by [NewLoadBalancer] for the backend
    at [backendIndex]. *)
Definition ErrorHandler (backendIndex : nat) : Response :=
  {| StatusCode := StatusBadGateway;
     Body := "Backend server " +:+ pretty (backendIndex + 1)%nat
               +:+ " is not available" |}.

(** [backend.Proxy.ServeHTTP(w, r)]. *)
Definition Proxy_ServeHTTP (backend : BackendRef) (r : Request) : Response :=
  match RoundTrip backend r with
  | TransportError _ => ErrorHandler backend
  | Relayed resp => resp
  end.

(** [atomic.AddUint64(&backend.RequestCount, 1)]. *)
Definition incRequestCount (b : Backend) : Backend :=
  {| URL := URL b; IsAdmin := IsAdmin b; IsAlive := IsAlive b;
     failCount := failCount b;
     RequestCount := AddUint64_1 (RequestCount b) |}.

Definition ServeHTTP (r : Request) (lb : LoadBalancer) : outcome Response :=
  match ValidateJWT (Authorization r) with
  | inr _ =>
      Ret {| StatusCode := StatusUnauthorized;
             Body := "Invalid or missing JWT token" |} lb
  | inl role =>
      match getBackendForRequest role lb with
      | Panicked p lb' => Panicked p lb'
      | Ret None lb' =>
          Ret {| StatusCode := StatusServiceUnavailable;
                 Body := "No available backend servers" |} lb'
      | Ret (Some backend) lb' =>
          Ret (Proxy_ServeHTTP backend r)
              (set_backends (alter incRequestCount backend (backends lb')) lb')
      end
  end.

End Handler.

(** ** HealthCheck *)

(** What [client.Get(backend.URL.String() + "/health")] yields. *)
Inductive probe_result : Type :=
| ProbeError (err : string)
| ProbeResponse (status : Z).

(** [err != nil || resp.StatusCode != http.StatusOK]. *)
Definition probe_failed (p : probe_result) : bool :=
  match p with
  | ProbeError _ => true
  | ProbeResponse status => negb (status =? StatusOK)
  end.

(** The critical section of the failing branch:
    [backend.IsAlive = false; backend.failCount++]. *)
Definition markDown (b : Backend) : Backend :=
  {| URL := URL b; IsAdmin := IsAdmin b;
     IsAlive := false;
     failCount := wrap_int (failCount b + 1);
     RequestCount := RequestCount b |}.

(** The critical section of the other branch:
    [backend.IsAlive = true; backend.failCount = 0]. *)
Definition markAlive (b : Backend) : Backend :=
  {| URL := URL b; IsAdmin := IsAdmin b;
     IsAlive := true;
     failCount := 0;
     RequestCount := RequestCount b |}.

(** The body of the inner loop for one backend. *)
Definition probeBackend (p : probe_result) (b : Backend) : Backend :=
  if probe_failed p then markDown b else markAlive b.

Definition probeStep (i : nat) (p : probe_result) (lb : LoadBalancer)
  : LoadBalancer :=
  set_backends (alter (probeBackend p) i (backends lb)) lb.

(** One tick: [for i, backend := range lb.backends]; [get i] is the result of
    this tick's request to backend [i]. *)
Definition healthCheckTick (get : nat -> probe_result) (lb : LoadBalancer)
  : LoadBalancer :=
  foldl (fun lb i => probeStep i (get i) lb) lb (seq 0 (length (backends lb))).

(** The first [length ticks] ticks of [for range ticker.C]. *)
Definition HealthCheck (ticks : list (nat -> probe_result)) (lb : LoadBalancer)
  : LoadBalancer :=
  foldl (fun lb get => healthCheckTick get lb) lb ticks.

(** ** GetStats *)

(** One entry of [stats["backends"]]; the field [stat_x] is the key ["x"]. *)
Record BackendStats : Type := mkBackendStats {
  stat_url : string;
  stat_isAdmin : bool;
  stat_isAlive : bool;
  stat_failCount : Z;
  stat_requestCount : Z
}.

Record Stats : Type := mkStats {
  stat_backends : list BackendStats;
  totalRequests : Z
}.

Definition GetStats (lb : LoadBalancer) : Stats :=
  {| stat_backends :=
       map (fun backend =>
              {| stat_url := URL backend;
                 stat_isAdmin := IsAdmin backend;
                 stat_isAlive := IsAlive backend;
                 stat_failCount := failCount backend;
                 stat_requestCount := RequestCount backend |}) (backends lb);
     totalRequests := roundRobinCount lb |}.

(** ** Runs of the balancer *)

Section Runs.

Variable ParseWithClaims : string -> parse_result.
Variable RoundTrip : BackendRef -> Request -> round_trip.

(** What happens to the shared balancer, one entry per handler run or probe
    update.  The handler's only write to the cursor is one atomic add and a
    probe update is one critical section, so the order of the entries stands
    for the order in which concurrent flows took effect. *)
Inductive event : Type :=
| Serve (r : Request)
| Probe (i : nat) (p : probe_result).

Definition step (ev : event) (lb : LoadBalancer) : LoadBalancer :=
  match ev with
  | Serve r => state_of (ServeHTTP ParseWithClaims RoundTrip r lb)
  | Probe i p => probeStep i p lb
  end.

Definition run (evs : list event) (lb : LoadBalancer) : LoadBalancer :=
  foldl (fun lb ev => step ev lb) lb evs.

(** The entries that reach the round-robin branch: a request with a valid
    token whose role is not Admin. *)
Definition round_robin_attempt (ev : event) : bool :=
  match ev with
  | Serve r =>
      match ValidateJWT ParseWithClaims (Authorization r) with
      | inl role => negb (String.eqb role "Admin")
      | inr _ => false
      end
  | Probe _ _ => false
  end.

(** The entries for which routing hands a backend to the proxy. *)
Definition routed (ev : event) (lb : LoadBalancer) : bool :=
  match ev with
  | Serve r =>
      match ValidateJWT ParseWithClaims (Authorization r) with
      | inl role =>
          match returned (getBackendForRequest role lb) with
          | Some (Some _) => true
          | _ => false
          end
      | inr _ => false
      end
  | Probe _ _ => false
  end.

Fixpoint routedCount (evs : list event) (lb : LoadBalancer) : Z :=
  match evs with
  | [] => 0
  | ev :: evs' =>
      (if routed ev lb then 1 else 0) + routedCount evs' (step ev lb)
  end.

End Runs.

(** ** GenerateJWT *)

(** The claims a minted token carries: [Claims] with the two registered
    claims [GenerateJWT] fills in, as seconds. *)
Record Claims : Type := mkClaims {
  Role : string;
  ExpiresAt : Z;
  IssuedAt : Z
}.

Section Minting.

(** [token.SignedString([]byte(jwtSecretKey))] over HS256: the signed token
    or the library's error. *)
Variable SignedString : Claims -> string + string.

(** [nowExp] and [nowIat] are the two readings of [time.Now()], in the
    order the composite literal takes them. *)
Definition GenerateJWT (nowExp nowIat : Z) (role : string) : string + string :=
  if negb (String.eqb role "User") && negb (String.eqb role "Client")
     && negb (String.eqb role "Admin")
  then inr ("invalid role: " +:+ role)
  else
    let claims := {| Role := role;
                     ExpiresAt := nowExp + 3600;
                     IssuedAt := nowIat |} in
    match SignedString claims with
    | inr err => inr err
    | inl tokenString => inl tokenString
    end.

End Minting.

(** ** Pools used in statements *)

(** A pool the process can hold: at least one backend, and few enough that
    twice its length is still an [int]. *)
Definition pool_ok (lb : LoadBalancer) : Prop :=
  1 <= len (backends lb) /\ 2 * len (backends lb) <= maxInt.

(** Liveness as the dispatcher reads it at a slice position. *)
Definition alive_at (bs : list Backend) (idx : Z) : bool :=
  match index bs idx with
  | Some backend => IsAlive backend
  | None => false
  end.

(** [IsAdmin] marks the first backend and no other. *)
Definition admin_first (lb : LoadBalancer) : Prop :=
  forall (i : nat) (b : Backend),
    backends lb !! i = Some b -> IsAdmin b = Nat.eqb i 0.

(** The sum of a list of counters. *)
Definition sumZ (l : list Z) : Z := foldr Z.add 0 l.

(** The pool [main] builds: three backends, all alive, cursor at zero. *)
Definition lb3 : LoadBalancer :=
  NewLoadBalancer ["http://localhost:8081"; "http://localhost:8082";
                   "http://localhost:8083"]%string.

(** ** Collaborators as the test suite sets them up *)

(** A token library that accepts the tokens [token:<role>] and nothing
    else. *)
Definition testParseWithClaims (tokenString : string) : parse_result :=
  match strip_prefix "token:" tokenString with
  | Some role => Parsed role true
  | None => ParseError "token contains an invalid number of segments"
  end.

(** [createBackendHandler]: every backend answers 200 and names itself. *)
Definition testRoundTrip (backend : BackendRef) (r : Request) : round_trip :=
  Relayed {| StatusCode := StatusOK;
             Body := "Response from Backend " +:+ pretty (backend + 1)%nat |}.

Definition testRequest (role : string) : Request :=
  {| Authorization := "Bearer token:" +:+ role;
     Method := "GET"; Path := "/" |}.

(** A signer to go with [testParseWithClaims]. *)
Definition testSignedString (claims : Claims) : string + string :=
  inl ("token:" +:+ Role claims).

(** * Properties *)

(** ** Machine arithmetic *)

Lemma wrap_uint64_range z : 0 <= wrap_uint64 z <= maxUint64.
Proof.
  unfold wrap_uint64, maxUint64.
  pose proof (Z.mod_pos_bound z (2 ^ 64) ltac:(lia)). lia.
Qed.

Lemma wrap_uint64_id z : 0 <= z <= maxUint64 -> wrap_uint64 z = z.
Proof. unfold wrap_uint64, maxUint64. intros H. apply Z.mod_small. lia. Qed.

Lemma wrap_int_id z : minInt <= z <= maxInt -> wrap_int z = z.
Proof.
  unfold wrap_int, minInt, maxInt. intros H.
  rewrite Z.mod_small by lia. lia.
Qed.

Lemma go_rem_nonneg a b :
  0 <= a -> 0 < b -> go_rem a b = Some (a mod b).
Proof.
  intros Ha Hb. unfold go_rem.
  destruct (Z.eqb_spec b 0) as [->|_]; [lia|].
  by rewrite Z.rem_mod_nonneg by lia.
Qed.

Lemma index_in_range {A} (s : list A) idx :
  0 <= idx < len s -> is_Some (index s idx).
Proof.
  intros H. unfold index, len in *.
  destruct (Z.ltb_spec idx 0); [lia|].
  apply lookup_lt_is_Some. lia.
Qed.

Lemma index_Some_range {A} (s : list A) idx x :
  index s idx = Some x -> 0 <= idx < len s.
Proof.
  unfold index, len. destruct (Z.ltb_spec idx 0) as [|Hge]; [done|].
  intros Hl%lookup_lt_Some. lia.
Qed.

Lemma index_of_nat {A} (s : list A) (i : nat) :
  index s (Z.of_nat i) = s !! i.
Proof.
  unfold index. destruct (Z.ltb_spec (Z.of_nat i) 0); [lia|].
  by rewrite Nat2Z.id.
Qed.

(** ** The wrap-around scan *)

Section Scan.

Variable bs : list Backend.
Variable start : Z.
Hypothesis Hstart : 0 <= start < len bs.
Hypothesis Hfits : 2 * len bs <= maxInt.

(** Inside the loop neither [nextIndex + i] nor [i + 1] overflows, so the
    probed position is [(start + i) mod n]. *)
Lemma scan_position i :
  0 <= i < len bs ->
  go_rem (wrap_int (start + i)) (len bs) = Some ((start + i) mod len bs)
  /\ 0 <= (start + i) mod len bs < len bs.
Proof using Hstart Hfits.
  intros Hi. unfold maxInt in Hfits.
  rewrite wrap_int_id by (unfold minInt, maxInt; lia).
  split; [apply go_rem_nonneg; lia|].
  apply Z.mod_pos_bound. lia.
Qed.

Lemma scanBackends_spec todo i :
  0 <= i -> i + Z.of_nat todo = len bs ->
  match scanBackends bs start i todo with
  | Selected idx =>
      exists j, i <= j < len bs /\ idx = (start + j) mod len bs
                /\ alive_at bs idx = true
                /\ forall k, i <= k < j ->
                             alive_at bs ((start + k) mod len bs) = false
  | NoneAlive =>
      forall k, i <= k < len bs -> alive_at bs ((start + k) mod len bs) = false
  | ScanPanic _ => False
  end.
Proof using Hstart Hfits.
  revert i. induction todo as [|todo IH]; intros i Hi Hsum; simpl.
  - intros k Hk. lia.
  - destruct (scan_position i) as [-> Hrange]; [lia|].
    destruct (index_in_range bs _ Hrange) as [backend Hb].
    rewrite Hb. destruct (IsAlive backend) eqn:Halive.
    + exists i. split; [lia|]. split; [done|].
      split; [by unfold alive_at; rewrite Hb|]. intros k Hk. lia.
    + assert (Hw : wrap_int (i + 1) = i + 1).
      { apply wrap_int_id. unfold minInt, maxInt in *. lia. }
      rewrite Hw. specialize (IH (i + 1) ltac:(lia) ltac:(lia)).
      destruct (scanBackends bs start (i + 1) todo) as [idx| |p]; [|  |done].
      * destruct IH as (j & Hj & -> & Hal & Hbefore).
        exists j. split; [lia|]. split; [done|]. split; [done|].
        intros k Hk. destruct (Z.eq_dec k i) as [->|Hne].
        -- unfold alive_at. by rewrite Hb.
        -- apply Hbefore. lia.
      * intros k Hk. destruct (Z.eq_dec k i) as [->|Hne].
        -- unfold alive_at. by rewrite Hb.
        -- apply IH. lia.
Qed.

(** One full wrap visits every position of the pool. *)
Lemma wrap_covers idx :
  0 <= idx < len bs ->
  exists k, 0 <= k < len bs /\ (start + k) mod len bs = idx.
Proof using Hstart.
  intros Hidx. exists ((idx - start) mod len bs). split.
  - apply Z.mod_pos_bound. lia.
  - rewrite Zplus_mod_idemp_r. replace (start + (idx - start)) with idx by lia.
    apply Z.mod_small. lia.
Qed.

End Scan.

(** ** Routing *)

(** Settles [pool_ok] on a pool written out in full. *)
Ltac pool_ok_by_eval :=
  unfold pool_ok, maxInt, len; cbn; lia.

Lemma pool_ok_index0 lb :
  pool_ok lb -> exists b0, index (backends lb) 0 = Some b0.
Proof.
  intros [H1 _]. destruct (index_in_range (backends lb) 0) as [b Hb]; [lia|].
  by exists b.
Qed.

(** The non-privileged branch: bump the cursor, then scan from
    [count mod n]. *)
Lemma route_round_robin_unfold role lb :
  role <> "Admin"%string -> pool_ok lb ->
  let count := AddUint64_1 (roundRobinCount lb) in
  let lb' := set_roundRobinCount count lb in
  getBackendForRequest role lb =
    match scanBackends (backends lb) (count mod len (backends lb)) 0
                       (length (backends lb)) with
    | Selected idx => Ret (Some (Z.to_nat idx)) lb'
    | NoneAlive => Ret None lb'
    | ScanPanic p => Panicked p lb'
    end
  /\ 0 <= count mod len (backends lb) < len (backends lb).
Proof.
  intros Hrole [Hn Hfits]. simpl.
  assert (Hmod : 0 <= AddUint64_1 (roundRobinCount lb) mod len (backends lb)
                 < len (backends lb)) by (apply Z.mod_pos_bound; lia).
  split; [|done].
  unfold getBackendForRequest.
  apply String.eqb_neq in Hrole. rewrite Hrole. simpl.
  pose proof (wrap_uint64_range (roundRobinCount lb + 1)) as Hc.
  unfold uint64_of_int. rewrite wrap_uint64_id
    by (unfold maxUint64, maxInt in *; lia).
  unfold AddUint64_1 in *. rewrite go_rem_nonneg by lia.
  unfold int_of_uint64. rewrite wrap_int_id
    by (unfold minInt, maxInt in *; lia).
  done.
Qed.

(** The flag [IsAdmin] sits on the first backend and on no other, as
    [NewLoadBalancer] sets it. *)
Lemma NewLoadBalancer_admin_first urls : admin_first (NewLoadBalancer urls).
Proof.
  intros i b. unfold NewLoadBalancer. simpl.
  rewrite list_lookup_imap. destruct (urls !! i); simpl; [|done].
  by intros [= <-].
Qed.

(** C1. A request with the Admin role gets the designated admin backend
    (the first of the pool, the one flagged [IsAdmin]) exactly when that
    backend's [IsAlive] is true; when it is false the call returns nil; no
    other backend is ever returned, and the balancer is left as it was. *)
Theorem privileged_route_pinned (lb : LoadBalancer) :
  pool_ok lb -> admin_first lb ->
  exists b0 : Backend,
    backends lb !! 0%nat = Some b0 /\ IsAdmin b0 = true
    /\ (IsAlive b0 = true ->
        getBackendForRequest "Admin" lb = Ret (Some 0%nat) lb)
    /\ (IsAlive b0 = false ->
        getBackendForRequest "Admin" lb = Ret None lb)
    /\ (forall ref : BackendRef,
          returned (getBackendForRequest "Admin" lb) = Some (Some ref) ->
          ref = 0%nat /\ IsAlive b0 = true).
Proof.
  intros Hok Hadm. destruct (pool_ok_index0 lb Hok) as [b0 Hb0].
  pose proof Hb0 as Hl. rewrite (index_of_nat _ 0) in Hl.
  exists b0. split; [done|]. split; [by rewrite (Hadm _ _ Hl)|].
  unfold getBackendForRequest. simpl. rewrite Hb0.
  destruct (IsAlive b0); simpl.
  - split; [done|]. split; [done|]. intros ref [= <-]. done.
  - split; [done|]. split; [done|]. intros ref [=].
Qed.

Lemma privileged_route_pinned_witness :
  pool_ok lb3 /\ admin_first lb3 /\
  exists b0 : Backend,
    backends lb3 !! 0%nat = Some b0 /\ IsAdmin b0 = true
    /\ (IsAlive b0 = true ->
        getBackendForRequest "Admin" lb3 = Ret (Some 0%nat) lb3)
    /\ (IsAlive b0 = false ->
        getBackendForRequest "Admin" lb3 = Ret None lb3)
    /\ (forall ref : BackendRef,
          returned (getBackendForRequest "Admin" lb3) = Some (Some ref) ->
          ref = 0%nat /\ IsAlive b0 = true).
Proof.
  assert (Hok : pool_ok lb3) by pool_ok_by_eval.
  pose proof (NewLoadBalancer_admin_first
                ["http://localhost:8081"; "http://localhost:8082";
                 "http://localhost:8083"]%string) as Hadm.
  split; [exact Hok|]. split; [exact Hadm|].
  exact (privileged_route_pinned lb3 Hok Hadm).
Defined.

(** What the round-robin branch returns, in terms of the positions it
    probes. *)
Lemma scan_outcome (role : string) (lb : LoadBalancer) :
  role <> "Admin"%string -> pool_ok lb ->
  let n := len (backends lb) in
  let count := (roundRobinCount lb + 1) mod 2 ^ 64 in
  let start := count mod n in
  0 <= start < n /\
  ((exists j : Z,
       0 <= j < n
       /\ alive_at (backends lb) ((start + j) mod n) = true
       /\ (forall k, 0 <= k < j ->
                     alive_at (backends lb) ((start + k) mod n) = false)
       /\ getBackendForRequest role lb =
            Ret (Some (Z.to_nat ((start + j) mod n)))
                (set_roundRobinCount count lb))
   \/ ((forall k, 0 <= k < n ->
                  alive_at (backends lb) ((start + k) mod n) = false)
       /\ getBackendForRequest role lb =
            Ret None (set_roundRobinCount count lb))).
Proof.
  intros Hrole Hok n count start.
  destruct (route_round_robin_unfold role lb Hrole Hok) as [Heq Hstart].
  fold n in Hstart. change (AddUint64_1 (roundRobinCount lb)) with count in *.
  fold n start in Heq, Hstart. split; [done|].
  destruct Hok as [Hn Hfits].
  pose proof (scanBackends_spec (backends lb) start Hstart Hfits
                (length (backends lb)) 0 ltac:(lia) ltac:(unfold len; lia))
    as Hscan.
  fold n in Hscan.
  destruct (scanBackends (backends lb) start 0 (length (backends lb)))
    as [idx| |p]; [| |done].
  - left. destruct Hscan as (j & Hj & -> & Hal & Hbefore).
    exists j. done.
  - right. done.
Qed.

(** C2. A request with any other role bumps the cursor atomically, starts
    at the new cursor value modulo the pool size, probes the positions
    [start, start+1, ...] modulo the pool size, at most one full wrap, and
    returns the first backend found alive; it returns nil when the full wrap
    finds none, which is when no backend of the pool is alive. *)
Theorem round_robin_failover_scan (role : string) (lb : LoadBalancer) :
  role <> "Admin"%string -> pool_ok lb ->
  let n := len (backends lb) in
  let count := (roundRobinCount lb + 1) mod 2 ^ 64 in
  let start := count mod n in
  0 <= start < n /\
  ((exists j : Z,
       0 <= j < n
       /\ alive_at (backends lb) ((start + j) mod n) = true
       /\ (forall k, 0 <= k < j ->
                     alive_at (backends lb) ((start + k) mod n) = false)
       /\ getBackendForRequest role lb =
            Ret (Some (Z.to_nat ((start + j) mod n)))
                (set_roundRobinCount count lb))
   \/ ((forall k, 0 <= k < n ->
                  alive_at (backends lb) ((start + k) mod n) = false)
       /\ (forall b, b ∈ backends lb -> IsAlive b = false)
       /\ getBackendForRequest role lb =
            Ret None (set_roundRobinCount count lb))).
Proof.
  intros Hrole Hok n count start.
  destruct (scan_outcome role lb Hrole Hok) as [Hstart Hcases].
  fold n count start in Hstart, Hcases. split; [done|].
  destruct Hcases as [Hfound | [Hnone Heq]]; [by left|right].
  split; [done|]. split; [|done].
  intros b [i Hi]%list_elem_of_lookup.
  assert (Hin : 0 <= Z.of_nat i < len (backends lb)).
  { apply lookup_lt_Some in Hi. unfold len. lia. }
  destruct (wrap_covers (backends lb) start Hstart (Z.of_nat i) Hin)
    as (k & Hk & Hki).
  specialize (Hnone k Hk). fold n in Hki. rewrite Hki in Hnone.
  unfold alive_at in Hnone. by rewrite index_of_nat, Hi in Hnone.
Qed.

Lemma round_robin_failover_scan_witness :
  "User"%string <> "Admin"%string /\ pool_ok lb3 /\
  let n := len (backends lb3) in
  let count := (roundRobinCount lb3 + 1) mod 2 ^ 64 in
  let start := count mod n in
  0 <= start < n /\
  ((exists j : Z,
       0 <= j < n
       /\ alive_at (backends lb3) ((start + j) mod n) = true
       /\ (forall k, 0 <= k < j ->
                     alive_at (backends lb3) ((start + k) mod n) = false)
       /\ getBackendForRequest "User" lb3 =
            Ret (Some (Z.to_nat ((start + j) mod n)))
                (set_roundRobinCount count lb3))
   \/ ((forall k, 0 <= k < n ->
                  alive_at (backends lb3) ((start + k) mod n) = false)
       /\ (forall b, b ∈ backends lb3 -> IsAlive b = false)
       /\ getBackendForRequest "User" lb3 =
            Ret None (set_roundRobinCount count lb3))).
Proof.
  assert (Hrole : "User"%string <> "Admin"%string) by discriminate.
  assert (Hok : pool_ok lb3) by pool_ok_by_eval.
  split; [exact Hrole|]. split; [exact Hok|].
  exact (round_robin_failover_scan "User" lb3 Hrole Hok).
Defined.

(** The cursor value 2 is where two non-Admin requests leave a fresh pool. *)
Lemma lb3_after_two_requests :
  state_of (getBackendForRequest "Client"
              (state_of (getBackendForRequest "User" lb3)))
  = set_roundRobinCount 2 lb3.
Proof. vm_compute. reflexivity. Qed.

(** C3, as stated, fails: on the three-backend pool with the cursor at 2, a
    User request is routed to the first backend, the one flagged
    [IsAdmin]. *)
Lemma nonprivileged_reaches_admin_backend :
  "User"%string <> "Admin"%string
  /\ pool_ok (set_roundRobinCount 2 lb3)
  /\ admin_first (set_roundRobinCount 2 lb3)
  /\ returned (getBackendForRequest "User" (set_roundRobinCount 2 lb3))
     = Some (Some 0%nat)
  /\ IsAdmin <$> backends (set_roundRobinCount 2 lb3) !! 0%nat = Some true.
Proof.
  split; [discriminate|]. split; [pool_ok_by_eval|].
  split; [apply (NewLoadBalancer_admin_first
                   ["http://localhost:8081"; "http://localhost:8082";
                    "http://localhost:8083"]%string)|].
  split; vm_compute; reflexivity.
Qed.

(** C3, amended. A request with a role other than Admin is spread over the
    alive backends of the whole pool, the admin backend included: whatever
    backend is returned has [IsAlive] true, and the admin backend is the one
    returned whenever it is alive and the start index is 0. *)
Theorem round_robin_over_all_alive (role : string) (lb : LoadBalancer) :
  role <> "Admin"%string -> pool_ok lb ->
  (forall ref : BackendRef,
      returned (getBackendForRequest role lb) = Some (Some ref) ->
      exists b, backends lb !! ref = Some b /\ IsAlive b = true)
  /\ (forall b0 : Backend,
        backends lb !! 0%nat = Some b0 -> IsAlive b0 = true ->
        AddUint64_1 (roundRobinCount lb) mod len (backends lb) = 0 ->
        returned (getBackendForRequest role lb) = Some (Some 0%nat)).
Proof.
  intros Hrole Hok.
  destruct (scan_outcome role lb Hrole Hok)
    as (Hstart & [(j & Hj & Hal & Hbefore & Heq) | (Hnone & Heq)]);
    rewrite Heq; simpl.
  - split.
    + intros ref [= <-]. unfold alive_at in Hal.
      destruct (index (backends lb) _) as [b|] eqn:Hb; [|done].
      exists b. split; [|done].
      pose proof (index_Some_range _ _ _ Hb) as Hr.
      rewrite <- index_of_nat. rewrite Z2Nat.id by lia. done.
    + intros b0 Hb0 Hlive H0. unfold AddUint64_1, wrap_uint64 in H0.
      rewrite H0 in *. destruct (Z.eq_dec j 0) as [->|Hne].
      * rewrite Z.add_0_l, Z.mod_0_l by (destruct Hok; lia). done.
      * specialize (Hbefore 0 ltac:(lia)).
        rewrite Z.add_0_l, Z.mod_0_l in Hbefore by (destruct Hok; lia).
        unfold alive_at in Hbefore.
        rewrite (index_of_nat _ 0), Hb0 in Hbefore. congruence.
  - split; [done|].
    intros b0 Hb0 Hlive H0. unfold AddUint64_1, wrap_uint64 in H0.
    rewrite H0 in *. specialize (Hnone 0 ltac:(destruct Hok; lia)).
    rewrite Z.add_0_l, Z.mod_0_l in Hnone by (destruct Hok; lia).
    unfold alive_at in Hnone.
    rewrite (index_of_nat _ 0), Hb0 in Hnone. congruence.
Qed.

Lemma round_robin_over_all_alive_witness :
  "User"%string <> "Admin"%string /\ pool_ok (set_roundRobinCount 2 lb3) /\
  (forall ref : BackendRef,
      returned (getBackendForRequest "User" (set_roundRobinCount 2 lb3))
      = Some (Some ref) ->
      exists b, backends (set_roundRobinCount 2 lb3) !! ref = Some b
                /\ IsAlive b = true)
  /\ (forall b0 : Backend,
        backends (set_roundRobinCount 2 lb3) !! 0%nat = Some b0 ->
        IsAlive b0 = true ->
        AddUint64_1 (roundRobinCount (set_roundRobinCount 2 lb3))
          mod len (backends (set_roundRobinCount 2 lb3)) = 0 ->
        returned (getBackendForRequest "User" (set_roundRobinCount 2 lb3))
        = Some (Some 0%nat)).
Proof.
  assert (Hrole : "User"%string <> "Admin"%string) by discriminate.
  assert (Hok : pool_ok (set_roundRobinCount 2 lb3)) by pool_ok_by_eval.
  split; [exact Hrole|]. split; [exact Hok|].
  exact (round_robin_over_all_alive "User" _ Hrole Hok).
Defined.

(** On a pool that is [pool_ok] no routing call panics, and a returned
    reference points into the pool. *)
Lemma routing_never_panics (lb : LoadBalancer) :
  pool_ok lb ->
  forall role : string,
    exists (res : option BackendRef) (lb' : LoadBalancer),
      getBackendForRequest role lb = Ret res lb'
      /\ forall ref, res = Some ref -> (ref < length (backends lb))%nat.
Proof.
  intros Hok role. pose proof Hok as [Hn Hfits].
  destruct (String.eqb role "Admin") eqn:Hrole.
  - apply String.eqb_eq in Hrole as ->.
    destruct (pool_ok_index0 lb Hok) as [b0 Hb0].
    unfold getBackendForRequest. simpl. rewrite Hb0.
    destruct (IsAlive b0); eexists _, _; (split; [done|]).
    + intros ref [= <-]. unfold len in *. lia.
    + done.
  - apply String.eqb_neq in Hrole.
    destruct (scan_outcome role lb Hrole Hok)
      as (Hstart & [(j & Hj & _ & _ & ->) | (_ & ->)]);
      eexists _, _; (split; [done|]); [|done].
    intros ref [= <-].
    pose proof (Z.mod_pos_bound
                  ((roundRobinCount lb + 1) mod 2 ^ 64 mod len (backends lb)
                   + j)
                  (len (backends lb)) ltac:(lia)) as Hidx.
    unfold len in *. lia.
Qed.

(** C9. On a pool of [n >= 1] backends every index the routing computes is
    within [0 .. n-1], whatever the cursor holds: the start index
    [int(count % uint64(n))], each scanned [(nextIndex + i) % n] for
    [0 <= i < n], and the index 0 of the Admin path; so no call of
    [getBackendForRequest] panics. *)
Theorem routing_indices_in_bounds (lb : LoadBalancer) :
  pool_ok lb ->
  let n := len (backends lb) in
  (exists r : Z,
      go_rem (AddUint64_1 (roundRobinCount lb)) (uint64_of_int n) = Some r
      /\ 0 <= int_of_uint64 r < n
      /\ forall i, 0 <= i < n ->
           exists idx : Z,
             go_rem (wrap_int (int_of_uint64 r + i)) n = Some idx
             /\ 0 <= idx < n
             /\ is_Some (index (backends lb) idx))
  /\ is_Some (index (backends lb) 0)
  /\ forall role : string,
       exists (res : option BackendRef) (lb' : LoadBalancer),
         getBackendForRequest role lb = Ret res lb'
         /\ forall ref, res = Some ref -> (ref < length (backends lb))%nat.
Proof.
  intros Hok n. pose proof Hok as [Hn Hfits]. fold n in Hn, Hfits.
  assert (Hmod : 0 <= AddUint64_1 (roundRobinCount lb) mod n < n)
    by (apply Z.mod_pos_bound; lia).
  pose proof (wrap_uint64_range (roundRobinCount lb + 1)) as Hc.
  fold (AddUint64_1 (roundRobinCount lb)) in Hc.
  assert (Hconv : uint64_of_int n = n).
  { apply wrap_uint64_id. unfold maxUint64, maxInt in *. lia. }
  assert (Hint : int_of_uint64 (AddUint64_1 (roundRobinCount lb) mod n)
                 = AddUint64_1 (roundRobinCount lb) mod n).
  { apply wrap_int_id. unfold minInt, maxInt in *. lia. }
  split; [|split].
  - exists (AddUint64_1 (roundRobinCount lb) mod n).
    rewrite Hconv, Hint. split; [apply go_rem_nonneg; lia|]. split; [done|].
    intros i Hi.
    destruct (scan_position (backends lb) _ Hmod Hfits i Hi) as [Hrem Hr].
    exists ((AddUint64_1 (roundRobinCount lb) mod n + i) mod n).
    split; [done|]. split; [done|]. by apply index_in_range.
  - apply index_in_range. lia.
  - by apply routing_never_panics.
Qed.

Lemma routing_indices_in_bounds_witness :
  pool_ok (set_roundRobinCount maxUint64 lb3) /\
  let lb := set_roundRobinCount maxUint64 lb3 in
  let n := len (backends lb) in
  (exists r : Z,
      go_rem (AddUint64_1 (roundRobinCount lb)) (uint64_of_int n) = Some r
      /\ 0 <= int_of_uint64 r < n
      /\ forall i, 0 <= i < n ->
           exists idx : Z,
             go_rem (wrap_int (int_of_uint64 r + i)) n = Some idx
             /\ 0 <= idx < n
             /\ is_Some (index (backends lb) idx))
  /\ is_Some (index (backends lb) 0)
  /\ forall role : string,
       exists (res : option BackendRef) (lb' : LoadBalancer),
         getBackendForRequest role lb = Ret res lb'
         /\ forall ref, res = Some ref -> (ref < length (backends lb))%nat.
Proof.
  assert (Hok : pool_ok (set_roundRobinCount maxUint64 lb3))
    by pool_ok_by_eval.
  split; [exact Hok|].
  exact (routing_indices_in_bounds (set_roundRobinCount maxUint64 lb3) Hok).
Defined.

(** The cursor at its largest value wraps to 0 and the request still lands
    inside the pool. *)
Example route_at_cursor_wraparound :
  getBackendForRequest "User" (set_roundRobinCount maxUint64 lb3)
  = Ret (Some 0%nat) (set_roundRobinCount 0 lb3).
Proof. vm_compute. reflexivity. Qed.

(** Where a routing call leaves the cursor. *)
Lemma getBackendForRequest_cursor role lb :
  roundRobinCount (state_of (getBackendForRequest role lb))
  = if String.eqb role "Admin" then roundRobinCount lb
    else AddUint64_1 (roundRobinCount lb).
Proof.
  unfold getBackendForRequest. destruct (String.eqb role "Admin").
  - destruct (index (backends lb) 0) as [b0|]; [|done].
    by destruct (IsAlive b0).
  - cbv zeta. destruct (go_rem _ _); [|done].
    by destruct (scanBackends _ _ _ _).
Qed.

(** C10. Routing an Admin request leaves the cursor as it was, whether the
    admin backend is alive or down; routing any other role moves it to
    [cursor + 1] (modulo 2^64). *)
Theorem admin_route_keeps_cursor (lb : LoadBalancer) :
  state_of (getBackendForRequest "Admin" lb) = lb
  /\ forall role : string,
       roundRobinCount (state_of (getBackendForRequest role lb))
       = if String.eqb role "Admin" then roundRobinCount lb
         else (roundRobinCount lb + 1) mod 2 ^ 64.
Proof.
  split.
  - unfold getBackendForRequest. simpl.
    destruct (index (backends lb) 0) as [b0|]; [|done].
    by destruct (IsAlive b0).
  - intros role. apply getBackendForRequest_cursor.
Qed.

(** The Admin path on a pool whose admin backend is down: nil, cursor
    untouched. *)
Example admin_route_down_keeps_cursor :
  let lb := set_backends (alter markDown 0%nat (backends lb3))
                         (set_roundRobinCount 7 lb3) in
  getBackendForRequest "Admin" lb = Ret None lb.
Proof. vm_compute. reflexivity. Qed.

(** The cursor really moves on a non-Admin attempt: [c + 1] wrapped is never
    [c] again. *)
Lemma AddUint64_1_changes c : 0 <= c <= maxUint64 -> AddUint64_1 c <> c.
Proof.
  unfold AddUint64_1, wrap_uint64, maxUint64. intros Hc.
  destruct (Z.eq_dec c (2 ^ 64 - 1)) as [->|Hne].
  - vm_compute. discriminate.
  - rewrite Z.mod_small by lia. lia.
Qed.

(** ** Health checking *)

Section Probes.

Variable get : nat -> probe_result.

Lemma probe_steps_lookup (l : list nat) (lb : LoadBalancer) (i : nat) :
  NoDup l ->
  backends (foldl (fun lb i => probeStep i (get i) lb) lb l) !! i
  = if decide (i ∈ l) then probeBackend (get i) <$> backends lb !! i
    else backends lb !! i.
Proof.
  revert lb. induction l as [|x l IH]; intros lb Hnd; cbn [foldl].
  - destruct (decide (i ∈ [])) as [Hin|_]; [|done].
    by apply elem_of_nil in Hin.
  - apply NoDup_cons in Hnd as [Hx Hnd]. rewrite IH by done.
    unfold probeStep at 1 2. cbn [backends set_backends].
    destruct (decide (x = i)) as [->|Hne].
    + rewrite list_lookup_alter_eq.
      destruct (decide (i ∈ l)) as [Hin|_]; [done|].
      destruct (decide (i ∈ i :: l)) as [_|Hout]; [done|].
      exfalso. apply Hout, elem_of_cons. by left.
    + rewrite list_lookup_alter_ne by done.
      destruct (decide (i ∈ l)) as [Hin|Hout];
        destruct (decide (i ∈ x :: l)) as [Hin'|Hout']; try done.
      * exfalso. apply Hout', elem_of_cons. by right.
      * apply elem_of_cons in Hin' as [->|Hin']; done.
Qed.

Lemma probe_steps_cursor (l : list nat) (lb : LoadBalancer) :
  roundRobinCount (foldl (fun lb i => probeStep i (get i) lb) lb l)
  = roundRobinCount lb.
Proof.
  revert lb. induction l as [|x l IH]; intros lb; simpl; [done|].
  by rewrite IH.
Qed.

(** One tick applies to each backend the update its own probe calls for. *)
Lemma healthCheckTick_lookup (lb : LoadBalancer) (i : nat) :
  backends (healthCheckTick get lb) !! i
  = probeBackend (get i) <$> backends lb !! i.
Proof.
  unfold healthCheckTick. rewrite probe_steps_lookup by apply NoDup_seq.
  destruct (decide (i ∈ seq 0 (length (backends lb)))) as [|Hout]; [done|].
  rewrite elem_of_seq in Hout.
  rewrite (lookup_ge_None_2 (backends lb) i) by lia. done.
Qed.

Lemma healthCheckTick_cursor (lb : LoadBalancer) :
  roundRobinCount (healthCheckTick get lb) = roundRobinCount lb.
Proof. apply probe_steps_cursor. Qed.

End Probes.

(** [N] failed probes in a row add [N] to a counter that has room for
    them. *)
Lemma failed_probes_count (ticks : list (nat -> probe_result))
      (lb : LoadBalancer) (i : nat) (b : Backend) :
  backends lb !! i = Some b ->
  0 <= failCount b -> failCount b + len ticks <= maxInt ->
  Forall (fun get => probe_failed (get i) = true) ticks ->
  exists b',
    backends (HealthCheck ticks lb) !! i = Some b'
    /\ failCount b' = failCount b + len ticks
    /\ (ticks <> [] -> IsAlive b' = false).
Proof.
  revert lb b. induction ticks as [|get ticks IH]; intros lb b Hb H0 Hmax Hall.
  - exists b. unfold len. simpl. split; [done|]. split; [lia|done].
  - apply Forall_cons in Hall as [Hfail Hall].
    unfold HealthCheck. simpl.
    assert (Hb' : backends (healthCheckTick get lb) !! i = Some (markDown b)).
    { rewrite healthCheckTick_lookup, Hb. simpl.
      unfold probeBackend. by rewrite Hfail. }
    assert (Hfc : failCount (markDown b) = failCount b + 1).
    { simpl. apply wrap_int_id. unfold len, minInt, maxInt in *.
      simpl length in Hmax. lia. }
    destruct (IH _ _ Hb') as (b' & Hl & Hc & Hdown).
    + lia.
    + rewrite Hfc. unfold len in *. simpl length in Hmax. lia.
    + done.
    + exists b'. split; [done|]. split.
      * rewrite Hc, Hfc. unfold len. simpl length. lia.
      * intros _. destruct ticks as [|get' ticks']; [|by apply Hdown].
        simpl in Hl. rewrite Hb' in Hl. by injection Hl as <-.
Qed.

(** C5. A backend whose failure counter is 0 and whose probe then fails on
    [N] ticks in a row has the counter at exactly [N] and, once [N >= 1],
    [IsAlive] false; and from any state one tick whose probe succeeds sets
    [IsAlive] to true and the counter to 0.  ([N] is within the range of
    [int].) *)
Theorem failure_counter_tracks_probes
        (ticks : list (nat -> probe_result)) (lb : LoadBalancer)
        (i : nat) (b : Backend) :
  backends lb !! i = Some b ->
  failCount b = 0 ->
  Forall (fun get => probe_failed (get i) = true) ticks ->
  len ticks <= maxInt ->
  (exists b',
      backends (HealthCheck ticks lb) !! i = Some b'
      /\ failCount b' = len ticks
      /\ (ticks <> [] -> IsAlive b' = false))
  /\ (forall (get : nat -> probe_result) (lb1 : LoadBalancer) (b1 : Backend),
        backends lb1 !! i = Some b1 ->
        probe_failed (get i) = false ->
        exists b2,
          backends (healthCheckTick get lb1) !! i = Some b2
          /\ IsAlive b2 = true /\ failCount b2 = 0).
Proof.
  intros Hb H0 Hall Hmax. split.
  - destruct (failed_probes_count ticks lb i b Hb) as (b' & Hl & Hc & Hd);
      [lia|lia|done|].
    exists b'. split; [done|]. split; [lia|done].
  - intros get lb1 b1 Hb1 Hsucc. exists (markAlive b1).
    rewrite healthCheckTick_lookup, Hb1. simpl.
    unfold probeBackend. by rewrite Hsucc.
Qed.

Lemma failure_counter_tracks_probes_witness :
  let down := fun _ : nat => ProbeError "connection refused" in
  let lb := set_backends (alter markAlive 1%nat (backends lb3)) lb3 in
  exists b : Backend,
    backends lb !! 1%nat = Some b /\ failCount b = 0
    /\ Forall (fun get => probe_failed (get 1%nat) = true) [down; down; down]
    /\ len [down; down; down] <= maxInt
    /\ (exists b',
           backends (HealthCheck [down; down; down] lb) !! 1%nat = Some b'
           /\ failCount b' = 3
           /\ IsAlive b' = false).
Proof.
  intros down lb.
  assert (Hb : backends lb !! 1%nat
               = Some (mkBackend "http://localhost:8082" false true 0 0))
    by reflexivity.
  assert (Hall : Forall (fun get => probe_failed (get 1%nat) = true)
                        [down; down; down])
    by (repeat constructor).
  assert (Hmax : len [down; down; down] <= maxInt)
    by (unfold len, maxInt; simpl; lia).
  eexists. split; [exact Hb|]. split; [reflexivity|].
  split; [exact Hall|]. split; [exact Hmax|].
  destruct (failure_counter_tracks_probes [down; down; down] lb 1%nat _
              Hb eq_refl Hall Hmax) as [(b' & Hl & Hc & Hd) _].
  exists b'. split; [exact Hl|]. split; [exact Hc|]. apply Hd. discriminate.
Defined.

(** C6, as stated, fails: the failing-probe update applied twice to a fresh
    backend leaves the counter at 2, applied once at 1. *)
Lemma markDown_twice_differs :
  let b := mkBackend "http://localhost:8081" true true 0 0 in
  markDown (markDown b) = mkBackend "http://localhost:8081" true false 2 0
  /\ markDown b = mkBackend "http://localhost:8081" true false 1 0
  /\ markDown (markDown b) <> markDown b.
Proof.
  split; [reflexivity|]. split; [reflexivity|]. discriminate.
Qed.

(** C6, amended. The successful-probe update is idempotent.  The
    failing-probe update is idempotent on the liveness flag only: applied
    once or twice it leaves [IsAlive] false, while every application adds
    one to the failure counter; neither update touches the other fields. *)
Theorem markAlive_idempotent_markDown_counts (b : Backend) :
  markAlive (markAlive b) = markAlive b
  /\ IsAlive (markDown (markDown b)) = IsAlive (markDown b)
  /\ IsAlive (markDown b) = false
  /\ failCount (markDown (markDown b)) = wrap_int (failCount (markDown b) + 1)
  /\ failCount (markDown b) = wrap_int (failCount b + 1)
  /\ (URL (markDown b), IsAdmin (markDown b), RequestCount (markDown b))
     = (URL b, IsAdmin b, RequestCount b)
  /\ (URL (markAlive b), IsAdmin (markAlive b), RequestCount (markAlive b))
     = (URL b, IsAdmin b, RequestCount b).
Proof.
  unfold markAlive, markDown. cbn [URL IsAdmin IsAlive failCount RequestCount].
  repeat split; reflexivity.
Qed.

(** ** The request handler *)

Lemma fmap_alter_frame {B : Type} (g : Backend -> B) (f : Backend -> Backend)
      (i : nat) (bs : list Backend) :
  (forall b, g (f b) = g b) -> g <$> alter f i bs = g <$> bs.
Proof.
  intros Hframe. rewrite (list_fmap_alter g f id).
  - by apply list_alter_id.
  - by apply Forall_forall.
Qed.

(** Routing hands the pool back untouched; only the cursor can differ. *)
Lemma getBackendForRequest_backends role lb :
  backends (state_of (getBackendForRequest role lb)) = backends lb.
Proof.
  unfold getBackendForRequest. destruct (String.eqb role "Admin").
  - destruct (index (backends lb) 0) as [b0|]; [|done].
    by destruct (IsAlive b0).
  - cbv zeta. destruct (go_rem _ _); [|done].
    by destruct (scanBackends _ _ _ _).
Qed.

Example test_serve_admin :
  ServeHTTP testParseWithClaims testRoundTrip (testRequest "Admin") lb3
  = Ret {| StatusCode := 200; Body := "Response from Backend 1" |}
        (set_backends (alter incRequestCount 0%nat (backends lb3)) lb3).
Proof. vm_compute. reflexivity. Qed.

Section ServeProperties.

Variable ParseWithClaims : string -> parse_result.
Variable RoundTrip : BackendRef -> Request -> round_trip.

Local Abbreviation validate := (ValidateJWT ParseWithClaims).
Local Abbreviation serve := (ServeHTTP ParseWithClaims RoundTrip).

(** The handler writes one field of one backend, [RequestCount]. *)
Lemma ServeHTTP_frame {B : Type} (g : Backend -> B) r lb :
  (forall b, g (incRequestCount b) = g b) ->
  g <$> backends (state_of (serve r lb)) = g <$> backends lb.
Proof.
  intros Hframe. unfold ServeHTTP.
  destruct (validate (Authorization r)) as [role|err]; [|done].
  pose proof (getBackendForRequest_backends role lb) as Hbs.
  destruct (getBackendForRequest role lb) as [[backend|] lb'|p lb'];
    simpl in *; rewrite <- Hbs; [|done|done].
  by apply fmap_alter_frame.
Qed.

Lemma step_cursor ev lb :
  roundRobinCount (step ParseWithClaims RoundTrip ev lb)
  = if round_robin_attempt ParseWithClaims ev
    then AddUint64_1 (roundRobinCount lb) else roundRobinCount lb.
Proof.
  destruct ev as [r|i p]; [|done]. simpl. unfold ServeHTTP.
  destruct (validate (Authorization r)) as [role|err]; [|done].
  pose proof (getBackendForRequest_cursor role lb) as Hc.
  destruct (getBackendForRequest role lb) as [[backend|] lb'|p lb'];
    simpl in *; rewrite Hc; by destruct (String.eqb role "Admin").
Qed.

(** Along a run the cursor moves once per round-robin attempt and never
    otherwise. *)
Lemma run_cursor evs lb :
  0 <= roundRobinCount lb <= maxUint64 ->
  roundRobinCount (run ParseWithClaims RoundTrip evs lb)
  = wrap_uint64
      (roundRobinCount lb
       + len (filter (fun ev => round_robin_attempt ParseWithClaims ev = true)
                     evs)).
Proof.
  revert lb. induction evs as [|ev evs IH]; intros lb Hc.
  - unfold len. simpl. rewrite Z.add_0_r. symmetry. by apply wrap_uint64_id.
  - unfold run in *. cbn [foldl]. rewrite IH.
    + rewrite step_cursor, filter_cons.
      destruct (round_robin_attempt ParseWithClaims ev) eqn:Hr.
      * rewrite decide_True by done. unfold len. cbn [length].
        unfold AddUint64_1, wrap_uint64.
        rewrite Zplus_mod_idemp_l. f_equal. lia.
      * rewrite decide_False by done. done.
    + rewrite step_cursor.
      destruct (round_robin_attempt ParseWithClaims ev); [|done].
      apply wrap_uint64_range.
Qed.

(** C7. The status of the response follows from exactly one of four cases,
    told apart by the token check, the routing result and the transport:
    401 when [ValidateJWT] returns an error; 503 when it returns a role and
    routing returns nil; 502 when a backend was chosen and the transport
    under its proxy fails; otherwise the chosen backend's own response,
    relayed as it is (so 200 when the backend answers 200). *)
Theorem response_status_by_case (r : Request) (lb : LoadBalancer) :
  pool_ok lb ->
  exists (resp : Response) (lb' : LoadBalancer),
    serve r lb = Ret resp lb'
    /\ match validate (Authorization r) with
       | inr _ => StatusCode resp = 401
       | inl role =>
           match returned (getBackendForRequest role lb) with
           | None => False
           | Some None => StatusCode resp = 503
           | Some (Some backend) =>
               match RoundTrip backend r with
               | TransportError _ => StatusCode resp = 502
               | Relayed backendResp => resp = backendResp
               end
           end
       end.
Proof.
  intros Hok. unfold ServeHTTP.
  destruct (validate (Authorization r)) as [role|err].
  - destruct (routing_never_panics lb Hok role) as (res & lb' & -> & _).
    destruct res as [backend|]; eexists _, _; (split; [done|]); simpl.
    + unfold Proxy_ServeHTTP. by destruct (RoundTrip backend r).
    + done.
  - by eexists _, _.
Qed.

(** C8. Routing never writes a backend: for every role and pool state
    [getBackendForRequest] leaves the slice of backends as it found it, so
    every [IsAlive] and every [failCount] is unchanged.  The handler around
    it writes [RequestCount] only.  [IsAlive] and [failCount] are written by
    the health check alone, whose first failed probe of an alive backend
    turns its flag off. *)
Theorem routing_reads_liveness_only (role : string) (lb : LoadBalancer) :
  backends (state_of (getBackendForRequest role lb)) = backends lb
  /\ (forall r : Request,
        IsAlive <$> backends (state_of (serve r lb)) = IsAlive <$> backends lb
        /\ failCount <$> backends (state_of (serve r lb))
           = failCount <$> backends lb)
  /\ (forall (i : nat) (p : probe_result),
        backends (probeStep i p lb) !! i
        = (if probe_failed p then markDown else markAlive)
            <$> backends lb !! i).
Proof.
  split; [apply getBackendForRequest_backends|]. split.
  - intros r. split; by apply ServeHTTP_frame.
  - intros i p. unfold probeStep. simpl. rewrite list_lookup_alter_eq.
    unfold probeBackend. by destruct (probe_failed p).
Qed.

End ServeProperties.

Lemma response_status_by_case_witness :
  pool_ok lb3 /\
  exists (resp : Response) (lb' : LoadBalancer),
    ServeHTTP testParseWithClaims testRoundTrip (testRequest "User") lb3
    = Ret resp lb'
    /\ match ValidateJWT testParseWithClaims
                         (Authorization (testRequest "User")) with
       | inr _ => StatusCode resp = 401
       | inl role =>
           match returned (getBackendForRequest role lb3) with
           | None => False
           | Some None => StatusCode resp = 503
           | Some (Some backend) =>
               match testRoundTrip backend (testRequest "User") with
               | TransportError _ => StatusCode resp = 502
               | Relayed backendResp => resp = backendResp
               end
           end
       end.
Proof.
  assert (Hok : pool_ok lb3) by pool_ok_by_eval.
  split; [exact Hok|].
  exact (response_status_by_case testParseWithClaims testRoundTrip
           (testRequest "User") lb3 Hok).
Defined.

(** The four cases on the three-backend pool. *)
Example serve_without_token :
  ServeHTTP testParseWithClaims testRoundTrip
            {| Authorization := EmptyString; Method := "GET"; Path := "/" |} lb3
  = Ret {| StatusCode := 401; Body := "Invalid or missing JWT token" |} lb3.
Proof. vm_compute. reflexivity. Qed.

Example serve_unknown_role :
  StatusCode <$> returned (ServeHTTP testParseWithClaims testRoundTrip
                                     (testRequest "Root") lb3)
  = Some 401.
Proof. vm_compute. reflexivity. Qed.

Example serve_admin_backend_down :
  let lb := set_backends (alter markDown 0%nat (backends lb3)) lb3 in
  ServeHTTP testParseWithClaims testRoundTrip (testRequest "Admin") lb
  = Ret {| StatusCode := 503; Body := "No available backend servers" |} lb.
Proof. vm_compute. reflexivity. Qed.

Example serve_transport_failure :
  ServeHTTP testParseWithClaims
            (fun _ _ => TransportError "dial tcp: connection refused")
            (testRequest "User") lb3
  = Ret {| StatusCode := 502; Body := "Backend server 2 is not available" |}
        (set_backends (alter incRequestCount 1%nat (backends lb3))
                      (set_roundRobinCount 1 lb3)).
Proof. vm_compute. reflexivity. Qed.

Example serve_user_ok :
  ServeHTTP testParseWithClaims testRoundTrip (testRequest "User") lb3
  = Ret {| StatusCode := 200; Body := "Response from Backend 2" |}
        (set_backends (alter incRequestCount 1%nat (backends lb3))
                      (set_roundRobinCount 1 lb3)).
Proof. vm_compute. reflexivity. Qed.

(** ** Invariants of the pool *)

(** Neither the handler nor the health check changes the number of backends
    or an [IsAdmin] flag, so [pool_ok] and [admin_first] hold throughout the
    life of a balancer made by [NewLoadBalancer]. *)
Lemma ServeHTTP_keeps_pool P R r lb :
  pool_ok lb -> admin_first lb ->
  pool_ok (state_of (ServeHTTP P R r lb))
  /\ admin_first (state_of (ServeHTTP P R r lb)).
Proof.
  intros Hok Hadm.
  pose proof (ServeHTTP_frame P R IsAdmin r lb ltac:(done)) as Hflags.
  split.
  - unfold pool_ok, len in *.
    rewrite <- (length_fmap IsAdmin), Hflags, length_fmap. done.
  - intros i b Hb.
    assert (Hi : (IsAdmin <$> backends lb) !! i = Some (IsAdmin b)).
    { rewrite <- Hflags, list_lookup_fmap, Hb. done. }
    rewrite list_lookup_fmap in Hi.
    destruct (backends lb !! i) as [b0|] eqn:Hb0; [|done].
    injection Hi as <-. by apply Hadm.
Qed.

Lemma healthCheckTick_keeps_pool get lb :
  pool_ok lb -> admin_first lb ->
  pool_ok (healthCheckTick get lb) /\ admin_first (healthCheckTick get lb).
Proof.
  intros Hok Hadm.
  assert (Hflag : forall p b, IsAdmin (probeBackend p b) = IsAdmin b).
  { intros p b. unfold probeBackend. by destruct (probe_failed p). }
  assert (Hlen : length (backends (healthCheckTick get lb))
                 = length (backends lb)).
  { destruct (Nat.lt_trichotomy (length (backends (healthCheckTick get lb)))
                                (length (backends lb))) as [Hlt|[Heq|Hgt]];
      [|done|].
    - apply lookup_lt_is_Some in Hlt as [b Hb].
      pose proof (healthCheckTick_lookup get lb
                    (length (backends (healthCheckTick get lb)))) as Hl.
      rewrite Hb, lookup_ge_None_2 in Hl by lia. done.
    - apply lookup_lt_is_Some in Hgt as [b Hb].
      rewrite healthCheckTick_lookup, lookup_ge_None_2 in Hb by lia. done. }
  split.
  - unfold pool_ok, len in *. by rewrite Hlen.
  - intros i b Hb. rewrite healthCheckTick_lookup in Hb.
    destruct (backends lb !! i) as [b0|] eqn:Hb0; [|done].
    injection Hb as <-. rewrite Hflag. by apply Hadm.
Qed.

(** C4, as stated, fails: one Admin request to the fresh three-backend pool
    is routed (answered 200 by the first backend, whose [RequestCount]
    becomes 1), and [GetStats] still reports [totalRequests] 0. *)
Lemma totalRequests_skips_admin_requests :
  let evs := [Serve (testRequest "Admin")] in
  let lb' := run testParseWithClaims testRoundTrip evs lb3 in
  ServeHTTP testParseWithClaims testRoundTrip (testRequest "Admin") lb3
  = Ret {| StatusCode := 200; Body := "Response from Backend 1" |} lb'
  /\ routedCount testParseWithClaims testRoundTrip evs lb3 = 1
  /\ stat_requestCount <$> stat_backends (GetStats lb') = [1; 0; 0]
  /\ totalRequests (GetStats lb') = 0
  /\ totalRequests (GetStats lb')
     <> routedCount testParseWithClaims testRoundTrip evs lb3.
Proof. vm_compute. repeat split; (reflexivity || discriminate). Qed.

(** The other way round: with every backend down a User request is turned
    away with 503, nothing is routed, and the reported total goes up. *)
Example totalRequests_counts_unrouted_attempt :
  let down := set_backends (markDown <$> backends lb3) lb3 in
  ServeHTTP testParseWithClaims testRoundTrip (testRequest "User") down
  = Ret {| StatusCode := 503; Body := "No available backend servers" |}
        (set_roundRobinCount 1 down)
  /\ routedCount testParseWithClaims testRoundTrip
                 [Serve (testRequest "User")] down = 0
  /\ totalRequests (GetStats (set_roundRobinCount 1 down)) = 1.
Proof. vm_compute. repeat split; reflexivity. Qed.

(** C4, amended. No increment of the cursor is lost: after any finite run of
    requests and probe updates the cursor, which is the value [GetStats]
    reads out as [totalRequests], stands at its initial value plus the
    number of round-robin attempts (requests with a valid non-Admin token),
    modulo 2^64, in whatever order the run took effect; Admin requests and
    rejected tokens do not move it, and an attempt moves it whether or not a
    backend is found. *)
Theorem cursor_counts_round_robin_attempts
        (ParseWithClaims : string -> parse_result)
        (RoundTrip : BackendRef -> Request -> round_trip)
        (evs : list event) (lb : LoadBalancer) :
  0 <= roundRobinCount lb <= maxUint64 ->
  roundRobinCount (run ParseWithClaims RoundTrip evs lb)
  = (roundRobinCount lb
     + len (filter (fun ev => round_robin_attempt ParseWithClaims ev = true)
                   evs)) mod 2 ^ 64
  /\ totalRequests (GetStats (run ParseWithClaims RoundTrip evs lb))
     = roundRobinCount (run ParseWithClaims RoundTrip evs lb)
  /\ forall evs' : list event,
       evs' ≡ₚ evs ->
       roundRobinCount (run ParseWithClaims RoundTrip evs' lb)
       = roundRobinCount (run ParseWithClaims RoundTrip evs lb).
Proof.
  intros Hc. split; [by apply run_cursor|]. split; [done|].
  intros evs' Hperm. rewrite !run_cursor by done.
  unfold len. by rewrite Hperm.
Qed.

Lemma cursor_counts_round_robin_attempts_witness :
  let evs := [Serve (testRequest "User"); Serve (testRequest "Admin");
              Probe 1 (ProbeResponse 500); Serve (testRequest "Client");
              Serve (testRequest "Root")] in
  0 <= roundRobinCount lb3 <= maxUint64
  /\ roundRobinCount (run testParseWithClaims testRoundTrip evs lb3) = 2
  /\ totalRequests (GetStats (run testParseWithClaims testRoundTrip evs lb3))
     = 2
  /\ forall evs' : list event,
       evs' ≡ₚ evs ->
       roundRobinCount (run testParseWithClaims testRoundTrip evs' lb3)
       = roundRobinCount (run testParseWithClaims testRoundTrip evs lb3).
Proof.
  intros evs.
  assert (Hc : 0 <= roundRobinCount lb3 <= maxUint64)
    by (unfold maxUint64; simpl; lia).
  destruct (cursor_counts_round_robin_attempts
              testParseWithClaims testRoundTrip evs lb3 Hc)
    as (Hrun & Hstats & Hperm).
  split; [exact Hc|]. split; [|split; [|exact Hperm]].
  - rewrite Hrun. reflexivity.
  - rewrite Hstats, Hrun. reflexivity.
Defined.

(** * Further properties of the package *)

(** ** Tokens *)

Lemma strip_prefix_app (prefix s : string) :
  strip_prefix prefix (prefix +:+ s) = Some s.
Proof.
  induction prefix as [|c prefix IH]; simpl; [done|].
  by rewrite Ascii.eqb_refl.
Qed.

Lemma valid_role_spec (role : string) :
  valid_role role = true
  <-> role = "User"%string \/ role = "Client"%string \/ role = "Admin"%string.
Proof.
  unfold valid_role. rewrite !orb_true_iff, !String.eqb_eq. tauto.
Qed.

(** The header as [ValidateJWT] hands it to the library: one leading
    [Bearer ] removed when there is one. *)
Lemma ValidateJWT_unfold (P : string -> parse_result) (tokenString : string) :
  tokenString <> EmptyString ->
  ValidateJWT P tokenString =
    match P (TrimPrefix tokenString "Bearer ") with
    | ParseError err => inr err
    | Parsed role valid =>
        if negb valid then inr "invalid token"%string
        else if negb (valid_role role)
             then inr ("invalid role claim: " +:+ role)
             else inl role
    end.
Proof.
  intros Hne. unfold ValidateJWT.
  apply String.eqb_neq in Hne. rewrite Hne.
  unfold HasPrefix, TrimPrefix.
  by destruct (strip_prefix "Bearer " tokenString).
Qed.

(** X1. [ValidateJWT] returns a role exactly when the header is not empty,
    the library parses the header (less one leading [Bearer ]) to a token
    it holds valid, and the token's role is User, Client or Admin; the role
    returned is the token's. *)
Theorem ValidateJWT_accepts_iff
        (P : string -> parse_result) (tokenString role : string) :
  ValidateJWT P tokenString = inl role
  <-> tokenString <> EmptyString
      /\ P (TrimPrefix tokenString "Bearer ") = Parsed role true
      /\ (role = "User"%string \/ role = "Client"%string
          \/ role = "Admin"%string).
Proof.
  rewrite <- valid_role_spec.
  destruct (String.eqb_spec tokenString EmptyString) as [->|Hne].
  - split; [done|]. by intros [? _].
  - rewrite ValidateJWT_unfold by done.
    destruct (P (TrimPrefix tokenString "Bearer ")) as [err|role' valid].
    + split; [done|]. by intros (_ & ? & _).
    + destruct valid; simpl.
      * destruct (valid_role role') eqn:Hrole; simpl.
        -- split.
           ++ intros [= <-]. done.
           ++ by intros (_ & [= <-] & _).
        -- split; [done|]. intros (_ & [= <-] & Hv). congruence.
      * split; [done|]. by intros (_ & ? & _).
Qed.

(** X2. The [Bearer ] prefix is optional: a non-empty header that does not
    itself begin with [Bearer ] is judged the same with the prefix put in
    front of it as without. *)
Theorem ValidateJWT_bearer_optional
        (P : string -> parse_result) (tokenString : string) :
  tokenString <> EmptyString ->
  HasPrefix tokenString "Bearer " = false ->
  ValidateJWT P ("Bearer " +:+ tokenString) = ValidateJWT P tokenString.
Proof.
  intros Hne Hpre.
  rewrite (ValidateJWT_unfold P ("Bearer " +:+ tokenString)) by done.
  rewrite (ValidateJWT_unfold P tokenString) by done.
  unfold TrimPrefix at 1. rewrite strip_prefix_app.
  unfold HasPrefix in Hpre. unfold TrimPrefix.
  by destruct (strip_prefix "Bearer " tokenString).
Qed.

Lemma ValidateJWT_bearer_optional_witness :
  "token:User"%string <> EmptyString
  /\ HasPrefix "token:User" "Bearer " = false
  /\ ValidateJWT testParseWithClaims ("Bearer " +:+ "token:User")
     = ValidateJWT testParseWithClaims "token:User".
Proof.
  assert (Hne : "token:User"%string <> EmptyString) by discriminate.
  assert (Hpre : HasPrefix "token:User" "Bearer " = false) by reflexivity.
  split; [exact Hne|]. split; [exact Hpre|].
  exact (ValidateJWT_bearer_optional testParseWithClaims "token:User"
           Hne Hpre).
Defined.

(** Only one prefix goes: a doubled [Bearer ] reaches the library with one
    still on, and a bare [Bearer ] reaches it as the empty token rather than
    being reported as missing. *)
Example ValidateJWT_strips_once (P : string -> parse_result) :
  ValidateJWT P "Bearer Bearer token:User"
  = ValidateJWT (fun t => P ("Bearer " +:+ t)) "Bearer token:User"
  /\ ValidateJWT testParseWithClaims "Bearer "
     = inr "token contains an invalid number of segments"%string
  /\ ValidateJWT testParseWithClaims EmptyString
     = inr "no token provided"%string.
Proof. repeat split; reflexivity. Qed.



(** X4. The role set is closed at both ends: for a role other than User,
    Client and Admin, [GenerateJWT] returns its invalid-role error whatever
    the signer would do, and [ValidateJWT] returns an error for every header
    whose token carries that role. *)
Theorem unknown_role_neither_minted_nor_accepted
        (SignedString : Claims -> string + string)
        (P : string -> parse_result)
        (nowExp nowIat : Z) (role tokenString : string) (valid : bool) :
  role <> "User"%string -> role <> "Client"%string ->
  role <> "Admin"%string ->
  GenerateJWT SignedString nowExp nowIat role
  = inr ("invalid role: " +:+ role)
  /\ (P (TrimPrefix tokenString "Bearer ") = Parsed role valid ->
      exists err, ValidateJWT P tokenString = inr err).
Proof.
  intros Hu Hc Ha. split.
  - unfold GenerateJWT.
    apply String.eqb_neq in Hu, Hc, Ha. by rewrite Hu, Hc, Ha.
  - intros Hparse.
    destruct (ValidateJWT P tokenString) as [role'|err] eqn:Hv; [|by exists err].
    apply ValidateJWT_accepts_iff in Hv as (_ & Hp & Hrole).
    rewrite Hparse in Hp. injection Hp as <- _. tauto.
Qed.

Lemma unknown_role_neither_minted_nor_accepted_witness :
  "Root"%string <> "User"%string /\ "Root"%string <> "Client"%string
  /\ "Root"%string <> "Admin"%string
  /\ GenerateJWT testSignedString 0 0 "Root" = inr "invalid role: Root"%string
  /\ exists err,
       ValidateJWT testParseWithClaims "Bearer token:Root" = inr err.
Proof.
  assert (Hu : "Root"%string <> "User"%string) by discriminate.
  assert (Hc : "Root"%string <> "Client"%string) by discriminate.
  assert (Ha : "Root"%string <> "Admin"%string) by discriminate.
  destruct (unknown_role_neither_minted_nor_accepted
              testSignedString testParseWithClaims 0 0 "Root"
              "Bearer token:Root" true Hu Hc Ha) as [Hgen Hval].
  split; [exact Hu|]. split; [exact Hc|]. split; [exact Ha|].
  split; [exact Hgen|]. apply Hval. reflexivity.
Defined.

(** ** More on routing *)

(** Whatever backend a routing call returns is in the pool and alive. *)
Lemma route_returns_alive role lb ref :
  pool_ok lb ->
  returned (getBackendForRequest role lb) = Some (Some ref) ->
  exists b, backends lb !! ref = Some b /\ IsAlive b = true.
Proof.
  intros Hok Hret. destruct (String.eqb role "Admin") eqn:Hrole.
  - apply String.eqb_eq in Hrole as ->.
    destruct (pool_ok_index0 lb Hok) as [b0 Hb0].
    unfold getBackendForRequest in Hret. simpl in Hret. rewrite Hb0 in Hret.
    destruct (IsAlive b0) eqn:Hlive; simpl in Hret; [|done].
    injection Hret as <-. exists b0. by rewrite <- (index_of_nat _ 0).
  - apply String.eqb_neq in Hrole.
    destruct (scan_outcome role lb Hrole Hok)
      as (Hstart & [(j & Hj & Hal & _ & Heq) | (_ & Heq)]);
      rewrite Heq in Hret; simpl in Hret; [|done].
    injection Hret as <-. unfold alive_at in Hal.
    destruct (index (backends lb) _) as [b|] eqn:Hb; [|done].
    exists b. split; [|done].
    pose proof (index_Some_range _ _ _ Hb) as Hr.
    rewrite <- index_of_nat. by rewrite Z2Nat.id by lia.
Qed.

(** The round-robin branch returns nil only from a pool with no backend
    alive. *)
Lemma route_nil_all_down role lb :
  role <> "Admin"%string -> pool_ok lb ->
  returned (getBackendForRequest role lb) = Some None ->
  forall i b, backends lb !! i = Some b -> IsAlive b = false.
Proof.
  intros Hrole Hok Hret i b Hi.
  destruct (scan_outcome role lb Hrole Hok)
    as (Hstart & [(j & Hj & _ & _ & Heq) | (Hnone & _)]);
    [by rewrite Heq in Hret|].
  assert (Hin : 0 <= Z.of_nat i < len (backends lb)).
  { apply lookup_lt_Some in Hi. unfold len. lia. }
  destruct (wrap_covers (backends lb) _ Hstart (Z.of_nat i) Hin)
    as (k & Hk & Hki).
  specialize (Hnone k Hk). rewrite Hki in Hnone.
  unfold alive_at in Hnone. by rewrite index_of_nat, Hi in Hnone.
Qed.

Lemma probeStep_pool_ok i p lb : pool_ok lb -> pool_ok (probeStep i p lb).
Proof. unfold pool_ok, probeStep, len. simpl. by rewrite length_alter. Qed.

(** X5. The dispatcher honours the health check: once a probe of backend
    [i] has failed, the next routing call, whatever its role, does not
    return backend [i]. *)
Theorem failed_probe_takes_backend_out
        (i : nat) (p : probe_result) (role : string) (lb : LoadBalancer) :
  pool_ok lb -> probe_failed p = true ->
  returned (getBackendForRequest role (probeStep i p lb)) <> Some (Some i).
Proof.
  intros Hok Hfail Hret.
  destruct (route_returns_alive role _ i (probeStep_pool_ok i p lb Hok) Hret)
    as (b & Hb & Hlive).
  unfold probeStep in Hb. simpl in Hb. rewrite list_lookup_alter_eq in Hb.
  destruct (backends lb !! i) as [b0|]; [|done].
  injection Hb as <-. unfold probeBackend in Hlive.
  by rewrite Hfail in Hlive.
Qed.

Lemma failed_probe_takes_backend_out_witness :
  pool_ok lb3 /\ probe_failed (ProbeResponse 503) = true
  /\ returned (getBackendForRequest "User"
                 (probeStep 1 (ProbeResponse 503) lb3))
     <> Some (Some 1%nat).
Proof.
  assert (Hok : pool_ok lb3) by pool_ok_by_eval.
  assert (Hfail : probe_failed (ProbeResponse 503) = true) by reflexivity.
  split; [exact Hok|]. split; [exact Hfail|].
  exact (failed_probe_takes_backend_out 1 (ProbeResponse 503) "User" lb3
           Hok Hfail).
Defined.

(** The round-robin branch on a pool that is [pool_ok]: some result, and
    the balancer with its cursor bumped. *)
Lemma round_robin_returns role lb :
  role <> "Admin"%string -> pool_ok lb ->
  exists res : option BackendRef,
    getBackendForRequest role lb
    = Ret res (set_roundRobinCount (AddUint64_1 (roundRobinCount lb)) lb).
Proof.
  intros Hrole Hok.
  destruct (scan_outcome role lb Hrole Hok)
    as (_ & [(j & _ & _ & _ & ->) | (_ & ->)]); by eexists.
Qed.

(** X6. Failover: while any backend of the pool is alive, a request with a
    role other than Admin is routed, and to an alive backend. *)
Theorem round_robin_available_while_any_alive
        (role : string) (lb : LoadBalancer) (i : nat) (b : Backend) :
  role <> "Admin"%string -> pool_ok lb ->
  backends lb !! i = Some b -> IsAlive b = true ->
  exists (ref : BackendRef) (b' : Backend),
    getBackendForRequest role lb
    = Ret (Some ref)
          (set_roundRobinCount (AddUint64_1 (roundRobinCount lb)) lb)
    /\ backends lb !! ref = Some b' /\ IsAlive b' = true.
Proof.
  intros Hrole Hok Hi Hlive.
  destruct (round_robin_returns role lb Hrole Hok) as [[ref|] Heq].
  - destruct (route_returns_alive role lb ref Hok) as (b' & Hb' & Hl');
      [by rewrite Heq|].
    by exists ref, b'.
  - assert (Hdown : IsAlive b = false).
    { apply (route_nil_all_down role lb Hrole Hok) with (i := i);
        [by rewrite Heq|done]. }
    congruence.
Qed.

Lemma round_robin_available_while_any_alive_witness :
  let lb := set_backends (alter markDown 0%nat
                            (alter markDown 1%nat (backends lb3))) lb3 in
  "User"%string <> "Admin"%string /\ pool_ok lb
  /\ backends lb !! 2%nat
     = Some (mkBackend "http://localhost:8083" false true 0 0)
  /\ exists (ref : BackendRef) (b' : Backend),
       getBackendForRequest "User" lb
       = Ret (Some ref)
             (set_roundRobinCount (AddUint64_1 (roundRobinCount lb)) lb)
       /\ backends lb !! ref = Some b' /\ IsAlive b' = true.
Proof.
  intros lb.
  assert (Hrole : "User"%string <> "Admin"%string) by discriminate.
  assert (Hok : pool_ok lb) by pool_ok_by_eval.
  assert (Hb : backends lb !! 2%nat
               = Some (mkBackend "http://localhost:8083" false true 0 0))
    by reflexivity.
  split; [exact Hrole|]. split; [exact Hok|]. split; [exact Hb|].
  exact (round_robin_available_while_any_alive "User" lb 2 _
           Hrole Hok Hb eq_refl).
Defined.

(** X7. When exactly one backend is alive, every request with a role other
    than Admin is routed to it, wherever the cursor stands. *)
Theorem sole_alive_backend_takes_all
        (role : string) (lb : LoadBalancer) (a : nat) (b : Backend) :
  role <> "Admin"%string -> pool_ok lb ->
  backends lb !! a = Some b -> IsAlive b = true ->
  (forall j b', j <> a -> backends lb !! j = Some b' -> IsAlive b' = false) ->
  getBackendForRequest role lb
  = Ret (Some a) (set_roundRobinCount (AddUint64_1 (roundRobinCount lb)) lb).
Proof.
  intros Hrole Hok Ha Hlive Hothers.
  destruct (round_robin_returns role lb Hrole Hok) as [[ref|] Heq].
  - destruct (route_returns_alive role lb ref Hok) as (b' & Hb' & Hl');
      [by rewrite Heq|].
    destruct (decide (ref = a)) as [->|Hne]; [done|].
    rewrite (Hothers ref b' Hne Hb') in Hl'. done.
  - assert (Hdown : IsAlive b = false).
    { apply (route_nil_all_down role lb Hrole Hok) with (i := a);
        [by rewrite Heq|done]. }
    congruence.
Qed.

Lemma sole_alive_backend_takes_all_witness :
  let lb := set_backends (alter markDown 0%nat
                            (alter markDown 1%nat (backends lb3)))
                         (set_roundRobinCount 41 lb3) in
  "Client"%string <> "Admin"%string /\ pool_ok lb
  /\ getBackendForRequest "Client" lb
     = Ret (Some 2%nat) (set_roundRobinCount 42 lb).
Proof.
  intros lb.
  assert (Hrole : "Client"%string <> "Admin"%string) by discriminate.
  assert (Hok : pool_ok lb) by pool_ok_by_eval.
  split; [exact Hrole|]. split; [exact Hok|].
  refine (sole_alive_backend_takes_all "Client" lb 2
            (mkBackend "http://localhost:8083" false true 0 0)
            Hrole Hok eq_refl eq_refl _).
  intros [|[|[|j]]] b' Hne Hb'; try done.
  - injection Hb' as <-. reflexivity.
  - injection Hb' as <-. reflexivity.
Defined.

(** X9. The empty pool, which [NewLoadBalancer] builds from an empty list of
    URLs: an Admin request panics on [lb.backends[0]] and leaves the
    balancer alone; any other request panics on the division by the pool
    size, after the cursor has been bumped. *)
Theorem empty_pool_routing_panics (c : Z) (role : string) :
  NewLoadBalancer [] = mkLoadBalancer [] 0
  /\ getBackendForRequest role (mkLoadBalancer [] c)
     = if String.eqb role "Admin"
       then Panicked IndexOutOfRange (mkLoadBalancer [] c)
       else Panicked IntegerDivideByZero (mkLoadBalancer [] (AddUint64_1 c)).
Proof.
  split; [reflexivity|].
  unfold getBackendForRequest. by destruct (String.eqb role "Admin").
Qed.

(** ** Round-robin order *)

(** With every backend alive the scan stops at its first probe. *)
Lemma route_all_alive role lb :
  role <> "Admin"%string -> pool_ok lb ->
  (forall i b, backends lb !! i = Some b -> IsAlive b = true) ->
  getBackendForRequest role lb
  = Ret (Some (Z.to_nat (AddUint64_1 (roundRobinCount lb)
                         mod len (backends lb))))
        (set_roundRobinCount (AddUint64_1 (roundRobinCount lb)) lb).
Proof.
  intros Hrole Hok Hall.
  destruct (scan_outcome role lb Hrole Hok)
    as (Hstart & [(j & Hj & _ & Hbefore & Heq) | (Hnone & _)]).
  - destruct (Z.eq_dec j 0) as [->|Hne].
    + rewrite Heq. rewrite Z.add_0_r, Z.mod_mod by lia. done.
    + specialize (Hbefore 0 ltac:(lia)).
      rewrite Z.add_0_r, Z.mod_mod in Hbefore by lia.
      unfold alive_at in Hbefore.
      destruct (index_in_range (backends lb) _ Hstart) as [b Hb].
      rewrite Hb in Hbefore.
      pose proof (index_Some_range _ _ _ Hb) as Hr.
      rewrite <- (Z2Nat.id (_ mod _)), index_of_nat in Hb by lia.
      rewrite (Hall _ _ Hb) in Hbefore. done.
  - destruct (pool_ok_index0 lb Hok) as [b0 Hb0].
    specialize (Hnone 0 ltac:(destruct Hok; lia)).
    rewrite Z.add_0_r, Z.mod_mod in Hnone by lia.
    unfold alive_at in Hnone.
    destruct (index_in_range (backends lb) _ Hstart) as [b Hb].
    rewrite Hb in Hnone.
    pose proof (index_Some_range _ _ _ Hb) as Hr.
    rewrite <- (Z2Nat.id (_ mod _)), index_of_nat in Hb by lia.
    rewrite (Hall _ _ Hb) in Hnone. done.
Qed.

(** Routing calls one after the other only move the cursor. *)
Lemma route_iter_state role lb (t : nat) :
  role <> "Admin"%string ->
  0 <= roundRobinCount lb ->
  roundRobinCount lb + Z.of_nat t <= maxUint64 ->
  Nat.iter t (fun s => state_of (getBackendForRequest role s)) lb
  = set_roundRobinCount (roundRobinCount lb + Z.of_nat t) lb.
Proof.
  intros Hrole Hc. induction t as [|t IH]; intros Hmax.
  - destruct lb. unfold set_roundRobinCount. simpl. f_equal. lia.
  - rewrite Nat.iter_succ, IH by lia.
    pose proof (getBackendForRequest_cursor role
                  (set_roundRobinCount (roundRobinCount lb + Z.of_nat t) lb))
      as Hcur.
    pose proof (getBackendForRequest_backends role
                  (set_roundRobinCount (roundRobinCount lb + Z.of_nat t) lb))
      as Hbs.
    apply String.eqb_neq in Hrole. rewrite Hrole in Hcur.
    destruct (state_of _) as [bs c']. simpl in *. subst.
    unfold set_roundRobinCount. simpl. f_equal.
    unfold AddUint64_1. rewrite wrap_uint64_id by lia. lia.
Qed.

Lemma mod_eq_close (a b n : Z) :
  0 < n -> a mod n = b mod n -> - n < a - b < n -> a = b.
Proof.
  intros Hn Hmod Hclose.
  pose proof (Z.div_mod a n ltac:(lia)) as Ha.
  pose proof (Z.div_mod b n ltac:(lia)) as Hb.
  rewrite Hmod in Ha.
  assert (a / n = b / n) by nia. nia.
Qed.

(** X8. Round-robin order.  With every backend alive and the cursor [n]
    steps clear of its wrap, the request made after [t] earlier ones
    ([t < n]) goes to backend [(cursor + 1 + t) mod n]; so [n] requests in
    a row reach every backend, each exactly once. *)
Theorem round_robin_full_cycle (role : string) (lb : LoadBalancer) :
  role <> "Admin"%string -> pool_ok lb ->
  (forall i b, backends lb !! i = Some b -> IsAlive b = true) ->
  0 <= roundRobinCount lb ->
  roundRobinCount lb + len (backends lb) <= maxUint64 ->
  let n := length (backends lb) in
  let nth_route (t : nat) :=
    returned (getBackendForRequest role
                (Nat.iter t (fun s => state_of (getBackendForRequest role s))
                          lb)) in
  (forall t, (t < n)%nat ->
     nth_route t
     = Some (Some (Z.to_nat ((roundRobinCount lb + 1 + Z.of_nat t)
                             mod Z.of_nat n))))
  /\ (forall i, (i < n)%nat ->
        exists t, (t < n)%nat /\ nth_route t = Some (Some i))
  /\ (forall t t', (t < n)%nat -> (t' < n)%nat ->
        nth_route t = nth_route t' -> t = t').
Proof.
  intros Hrole Hok Hall Hc Hmax n nth_route.
  pose proof Hok as [Hn Hfits]. unfold len in Hn, Hfits, Hmax.
  fold n in Hn, Hfits, Hmax.
  assert (Hnth : forall t, (t < n)%nat ->
            nth_route t
            = Some (Some (Z.to_nat ((roundRobinCount lb + 1 + Z.of_nat t)
                                    mod Z.of_nat n)))).
  { intros t Ht. unfold nth_route.
    rewrite route_iter_state by (done || lia).
    rewrite route_all_alive; [|done|done|done]. simpl.
    unfold AddUint64_1, len. rewrite wrap_uint64_id by lia.
    fold n. do 4 f_equal. lia. }
  split; [exact Hnth|]. split.
  - intros i Hi.
    exists (Z.to_nat ((Z.of_nat i - (roundRobinCount lb + 1)) mod Z.of_nat n)).
    pose proof (Z.mod_pos_bound (Z.of_nat i - (roundRobinCount lb + 1))
                  (Z.of_nat n) ltac:(lia)) as Hb.
    assert (Ht : (Z.to_nat ((Z.of_nat i - (roundRobinCount lb + 1))
                            mod Z.of_nat n) < n)%nat) by lia.
    split; [exact Ht|]. rewrite Hnth by exact Ht.
    rewrite Z2Nat.id by lia. rewrite Zplus_mod_idemp_r.
    replace (roundRobinCount lb + 1 + (Z.of_nat i - (roundRobinCount lb + 1)))
      with (Z.of_nat i) by lia.
    rewrite Z.mod_small by lia. by rewrite Nat2Z.id.
  - intros t t' Ht Ht' Heq. rewrite !Hnth in Heq by done.
    injection Heq as Heq.
    pose proof (Z.mod_pos_bound (roundRobinCount lb + 1 + Z.of_nat t)
                  (Z.of_nat n) ltac:(lia)).
    pose proof (Z.mod_pos_bound (roundRobinCount lb + 1 + Z.of_nat t')
                  (Z.of_nat n) ltac:(lia)).
    apply Z2Nat.inj in Heq; [|lia|lia].
    apply mod_eq_close in Heq; lia.
Qed.

Lemma lb3_all_alive :
  forall i b, backends lb3 !! i = Some b -> IsAlive b = true.
Proof.
  intros [|[|[|i]]] b Hb; try done; by injection Hb as <-.
Qed.

Lemma round_robin_full_cycle_witness :
  "User"%string <> "Admin"%string /\ pool_ok lb3
  /\ (forall i b, backends lb3 !! i = Some b -> IsAlive b = true)
  /\ 0 <= roundRobinCount lb3
  /\ roundRobinCount lb3 + len (backends lb3) <= maxUint64
  /\ forall t, (t < 3)%nat ->
       returned (getBackendForRequest "User"
                   (Nat.iter t
                      (fun s => state_of (getBackendForRequest "User" s))
                      lb3))
       = Some (Some (Z.to_nat ((0 + 1 + Z.of_nat t) mod 3))).
Proof.
  assert (Hrole : "User"%string <> "Admin"%string) by discriminate.
  assert (Hok : pool_ok lb3) by pool_ok_by_eval.
  assert (Hc : 0 <= roundRobinCount lb3) by (simpl; lia).
  assert (Hmax : roundRobinCount lb3 + len (backends lb3) <= maxUint64)
    by (unfold len, maxUint64; simpl; lia).
  split; [exact Hrole|]. split; [exact Hok|].
  split; [exact lb3_all_alive|]. split; [exact Hc|]. split; [exact Hmax|].
  exact (proj1 (round_robin_full_cycle "User" lb3 Hrole Hok lb3_all_alive
                  Hc Hmax)).
Defined.

(** ** Served-request counters *)

Lemma scan_selected_in_range bs nextIndex i todo idx :
  scanBackends bs nextIndex i todo = Selected idx -> is_Some (index bs idx).
Proof.
  revert i. induction todo as [|todo IH]; intros i; simpl; [done|].
  destruct (go_rem _ _) as [idx'|]; [|done].
  destruct (index bs idx') as [backend|] eqn:Hb; [|done].
  destruct (IsAlive backend); [|by apply IH].
  intros [= <-]. by rewrite Hb.
Qed.

(** A returned reference points into the pool, on any pool. *)
Lemma route_ref_in_range role lb ref :
  returned (getBackendForRequest role lb) = Some (Some ref) ->
  is_Some (backends lb !! ref).
Proof.
  unfold getBackendForRequest. destruct (String.eqb role "Admin").
  - destruct (index (backends lb) 0) as [b0|] eqn:Hb0; [|done].
    destruct (IsAlive b0); simpl; [|done].
    intros [= <-]. exists b0. exact Hb0.
  - cbv zeta. destruct (go_rem _ _) as [r|]; [|done].
    destruct (scanBackends _ _ _ _) as [idx| |p] eqn:Hscan; simpl; [|done|done].
    intros [= <-]. apply scan_selected_in_range in Hscan as [b Hb].
    pose proof (index_Some_range _ _ _ Hb) as Hr. simpl in Hb.
    rewrite <- index_of_nat. rewrite Z2Nat.id by lia. by rewrite Hb.
Qed.

Lemma GetStats_requestCounts lb :
  stat_requestCount <$> stat_backends (GetStats lb)
  = RequestCount <$> backends lb.
Proof.
  unfold GetStats. cbn [stat_backends].
  induction (backends lb) as [|b bs IH]; [done|].
  cbn [map]. rewrite !fmap_cons, IH. done.
Qed.

Lemma sum_counts_alter_inc (bs : list Backend) (ref : nat) (b : Backend) :
  bs !! ref = Some b ->
  sumZ (RequestCount <$> alter incRequestCount ref bs)
  = sumZ (RequestCount <$> bs) - RequestCount b
    + AddUint64_1 (RequestCount b).
Proof.
  revert ref. induction bs as [|x bs IH]; intros [|ref] Hb; try done.
  - injection Hb as ->. unfold sumZ. simpl. lia.
  - simpl in Hb. specialize (IH ref Hb). unfold sumZ in *. cbn in *. lia.
Qed.

Lemma count_le_sum (bs : list Backend) (i : nat) (b : Backend) :
  Forall (fun b => 0 <= RequestCount b) bs ->
  bs !! i = Some b -> RequestCount b <= sumZ (RequestCount <$> bs).
Proof.
  intros Hnn. revert i. induction Hnn as [|x bs Hx Hnn IH]; intros [|i] Hb;
    try done; unfold sumZ in *; cbn in *.
  - injection Hb as ->.
    assert (0 <= foldr Z.add 0 (RequestCount <$> bs)); [|lia].
    clear IH. induction Hnn; cbn; lia.
  - specialize (IH i Hb). lia.
Qed.

Section Counters.

Variable ParseWithClaims : string -> parse_result.
Variable RoundTrip : BackendRef -> Request -> round_trip.

Local Abbreviation step' := (step ParseWithClaims RoundTrip).

(** One entry of a run adds one to the sum of the counters when it is a
    routed request, and nothing otherwise. *)
Lemma step_counts ev lb :
  Forall (fun b => 0 <= RequestCount b) (backends lb) ->
  sumZ (RequestCount <$> backends lb) < maxUint64 ->
  Forall (fun b => 0 <= RequestCount b) (backends (step' ev lb))
  /\ sumZ (RequestCount <$> backends (step' ev lb))
     = sumZ (RequestCount <$> backends lb)
       + (if routed ParseWithClaims ev lb then 1 else 0).
Proof.
  intros Hnn Hsum. destruct ev as [r|i p]; simpl.
  - unfold ServeHTTP.
    destruct (ValidateJWT ParseWithClaims (Authorization r)) as [role|err];
      [|cbn [state_of]; split; [done|lia]].
    pose proof (getBackendForRequest_backends role lb) as Hbs.
    pose proof (route_ref_in_range role lb) as Hin.
    destruct (getBackendForRequest role lb) as [[ref|] lb'|pn lb'];
      cbn [state_of returned set_backends backends] in *;
      rewrite ?Hbs; [|split; [done|lia]..].
    destruct (Hin ref eq_refl) as [b Hb]. clear Hin.
    unfold BackendRef in *.
    pose proof (count_le_sum _ _ _ Hnn Hb) as Hle.
    assert (Hb0 : 0 <= RequestCount b).
    { rewrite Forall_forall in Hnn. apply Hnn.
      by apply list_elem_of_lookup_2 in Hb. }
    assert (Hinc : AddUint64_1 (RequestCount b) = RequestCount b + 1).
    { unfold AddUint64_1. apply wrap_uint64_id. lia. }
    split.
    + apply Forall_forall. intros x [j Hj]%list_elem_of_lookup.
      destruct (decide (j = ref)) as [->|Hne].
      * rewrite list_lookup_alter_eq, Hb in Hj. injection Hj as <-.
        simpl. lia.
      * rewrite list_lookup_alter_ne in Hj by done.
        rewrite Forall_forall in Hnn. apply Hnn.
        by apply list_elem_of_lookup_2 in Hj.
    + rewrite (sum_counts_alter_inc _ _ _ Hb). lia.
  - rewrite fmap_alter_frame
      by (intros b; unfold probeBackend; by destruct (probe_failed p)).
    split; [|lia].
    apply Forall_forall. intros x [j Hj]%list_elem_of_lookup.
    rewrite Forall_forall in Hnn.
    destruct (decide (j = i)) as [->|Hne].
    + rewrite list_lookup_alter_eq in Hj.
      destruct (backends lb !! i) as [b|] eqn:Hb; [|done].
      injection Hj as <-.
      assert (Hrc : RequestCount (probeBackend p b) = RequestCount b)
        by (unfold probeBackend; by destruct (probe_failed p)).
      rewrite Hrc. apply Hnn. by apply list_elem_of_lookup_2 in Hb.
    + rewrite list_lookup_alter_ne in Hj by done.
      apply Hnn. by apply list_elem_of_lookup_2 in Hj.
Qed.

Lemma routedCount_bound evs lb :
  0 <= routedCount ParseWithClaims RoundTrip evs lb <= len evs.
Proof.
  revert lb. induction evs as [|ev evs IH]; intros lb; unfold len in *;
    simpl; [lia|].
  specialize (IH (step' ev lb)).
  destruct (routed ParseWithClaims ev lb); lia.
Qed.

(** X10. The served-request counters add up: over any run of requests and
    probe updates, the [requestCount] entries that [GetStats] reports grow
    in total by exactly the number of requests that were routed to a
    backend (as long as the total stays within [uint64]). *)
Theorem request_counters_count_routed_requests
        (evs : list event) (lb : LoadBalancer) :
  Forall (fun b => 0 <= RequestCount b) (backends lb) ->
  sumZ (RequestCount <$> backends lb) + len evs <= maxUint64 ->
  sumZ (stat_requestCount
          <$> stat_backends (GetStats (run ParseWithClaims RoundTrip evs lb)))
  = sumZ (stat_requestCount <$> stat_backends (GetStats lb))
    + routedCount ParseWithClaims RoundTrip evs lb.
Proof.
  rewrite !GetStats_requestCounts.
  revert lb. induction evs as [|ev evs IH]; intros lb Hnn Hsum.
  - simpl. lia.
  - unfold len in Hsum. simpl length in Hsum.
    destruct (step_counts ev lb Hnn ltac:(lia)) as [Hnn' Hstep].
    unfold run in *. cbn [foldl routedCount].
    rewrite IH; [lia|done|].
    rewrite Hstep. unfold len.
    destruct (routed ParseWithClaims ev lb); lia.
Qed.

End Counters.

Lemma request_counters_count_routed_requests_witness :
  let evs := [Serve (testRequest "User"); Serve (testRequest "Admin");
              Probe 2 (ProbeError "timeout"); Serve (testRequest "Root");
              Serve (testRequest "Client")] in
  Forall (fun b => 0 <= RequestCount b) (backends lb3)
  /\ sumZ (RequestCount <$> backends lb3) + len evs <= maxUint64
  /\ sumZ (stat_requestCount
            <$> stat_backends
                  (GetStats (run testParseWithClaims testRoundTrip evs lb3)))
     = 3.
Proof.
  intros evs.
  assert (Hnn : Forall (fun b => 0 <= RequestCount b) (backends lb3))
    by (repeat constructor; simpl; lia).
  assert (Hsum : sumZ (RequestCount <$> backends lb3) + len evs <= maxUint64)
    by (unfold len, maxUint64; simpl; lia).
  split; [exact Hnn|]. split; [exact Hsum|].
  rewrite (request_counters_count_routed_requests
             testParseWithClaims testRoundTrip evs lb3 Hnn Hsum).
  reflexivity.
Defined.

(** ** States a balancer can reach *)

Section Reachable.

Variable ParseWithClaims : string -> parse_result.
Variable RoundTrip : BackendRef -> Request -> round_trip.

Local Abbreviation run' := (run ParseWithClaims RoundTrip).



(** Every backend of a run's final state is either alive with its counter
    at 0 or down with its counter between 1 and the length of the run. *)
Lemma run_liveness_counter evs lb (k : Z) :
  0 <= k -> k + len evs <= maxInt ->
  (forall i b, backends lb !! i = Some b ->
     (IsAlive b = true /\ failCount b = 0)
     \/ (IsAlive b = false /\ 1 <= failCount b <= k)) ->
  forall i b, backends (run' evs lb) !! i = Some b ->
    (IsAlive b = true /\ failCount b = 0)
    \/ (IsAlive b = false /\ 1 <= failCount b <= k + len evs).
Proof.
  revert lb k. induction evs as [|ev evs IH]; intros lb k Hk Hmax Hinv i b Hb.
  - unfold len. simpl. rewrite Z.add_0_r. by apply (Hinv i).
  - unfold len in *. simpl length in *. unfold run in *. cbn [foldl] in Hb.
    replace (k + Z.of_nat (S (length evs)))
      with ((k + 1) + Z.of_nat (length evs)) by lia.
    apply (IH (step ParseWithClaims RoundTrip ev lb) (k + 1)) with (i := i);
      [lia|lia| |done].
    clear i b Hb. intros i b Hb. destruct ev as [r|j p]; simpl in Hb.
    + pose proof (ServeHTTP_frame ParseWithClaims RoundTrip
                    (fun b => (IsAlive b, failCount b)) r lb ltac:(done))
        as Hframe.
      assert (Hi : ((fun b => (IsAlive b, failCount b))
                      <$> backends lb) !! i = Some (IsAlive b, failCount b))
        by (by rewrite <- Hframe, list_lookup_fmap, Hb).
      rewrite list_lookup_fmap in Hi.
      destruct (backends lb !! i) as [b0|] eqn:Hb0; [|done].
      injection Hi as Hal Hfc. rewrite <- Hal, <- Hfc.
      destruct (Hinv i b0 Hb0) as [?|[? ?]]; [by left|right]. split; [done|lia].
    + destruct (decide (j = i)) as [->|Hne].
      * rewrite list_lookup_alter_eq in Hb.
        destruct (backends lb !! i) as [b0|] eqn:Hb0; [|done].
        injection Hb as <-. unfold probeBackend.
        destruct (probe_failed p); [right|by left].
        split; [done|]. simpl.
        assert (0 <= failCount b0 <= k)
          by (destruct (Hinv i b0 Hb0) as [[_ ->]|[_ ?]]; lia).
        rewrite wrap_int_id by (unfold minInt, maxInt in *; lia). lia.
      * rewrite list_lookup_alter_ne in Hb by done.
        destruct (Hinv i b Hb) as [?|[? ?]]; [by left|right].
        split; [done|lia].
Qed.

(** X13. In every state a balancer built by [NewLoadBalancer] reaches by a
    run of requests and probe updates (of a length within [int]), a backend
    is alive exactly when its failure counter is 0. *)
Theorem alive_iff_no_failures_counted
        (urls : list string) (evs : list event) (i : nat) (b : Backend) :
  len evs <= maxInt ->
  backends (run' evs (NewLoadBalancer urls)) !! i = Some b ->
  (IsAlive b = true <-> failCount b = 0).
Proof.
  intros Hmax Hb.
  destruct (run_liveness_counter evs (NewLoadBalancer urls) 0
              ltac:(lia) ltac:(lia)) with (i := i) (b := b)
    as [[Hal Hfc]|[Hal Hfc]]; [|done|by rewrite Hal, Hfc|].
  - clear. intros j b0 Hb0. left. unfold NewLoadBalancer in Hb0.
    cbn [backends] in Hb0. rewrite list_lookup_imap in Hb0.
    destruct (urls !! j); [|done]. by injection Hb0 as <-.
  - rewrite Hal. split; [done|lia].
Qed.

End Reachable.


Lemma alive_iff_no_failures_counted_witness :
  let urls := ["http://localhost:8081"; "http://localhost:8082"]%string in
  let evs := [Probe 1 (ProbeResponse 500); Serve (testRequest "User");
              Probe 1 (ProbeError "timeout")] in
  let b := mkBackend "http://localhost:8082" false false 2 0 in
  len evs <= maxInt
  /\ backends (run testParseWithClaims testRoundTrip evs
                 (NewLoadBalancer urls)) !! 1%nat = Some b
  /\ (IsAlive b = true <-> failCount b = 0).
Proof.
  intros urls evs b.
  assert (Hmax : len evs <= maxInt) by (unfold len, maxInt; simpl; lia).
  assert (Hb : backends (run testParseWithClaims testRoundTrip evs
                           (NewLoadBalancer urls)) !! 1%nat = Some b)
    by (vm_compute; reflexivity).
  split; [exact Hmax|]. split; [exact Hb|].
  exact (alive_iff_no_failures_counted testParseWithClaims testRoundTrip
           urls evs 1 b Hmax Hb).
Defined.

(** ** More on the health check *)

Lemma HealthCheck_snoc ticks get lb :
  HealthCheck (ticks ++ [get]) lb = healthCheckTick get (HealthCheck ticks lb).
Proof. unfold HealthCheck. by rewrite foldl_app. Qed.

Lemma HealthCheck_keeps_backend ticks lb i b :
  backends lb !! i = Some b ->
  exists b', backends (HealthCheck ticks lb) !! i = Some b'.
Proof.
  revert lb b. induction ticks as [|get ticks IH]; intros lb b Hb.
  - by exists b.
  - unfold HealthCheck in *. cbn [foldl].
    apply (IH _ (probeBackend (get i) b)).
    by rewrite healthCheckTick_lookup, Hb.
Qed.

(** X12. Liveness is the outcome of the latest probe: after any number of
    ticks a backend's [IsAlive] is true exactly when its probe on the last
    tick succeeded, whatever the earlier ticks found; and when it succeeded
    the failure counter is 0. *)
Theorem liveness_follows_last_probe
        (ticks : list (nat -> probe_result)) (get : nat -> probe_result)
        (lb : LoadBalancer) (i : nat) (b : Backend) :
  backends lb !! i = Some b ->
  exists b',
    backends (HealthCheck (ticks ++ [get]) lb) !! i = Some b'
    /\ IsAlive b' = negb (probe_failed (get i))
    /\ (probe_failed (get i) = false -> failCount b' = 0).
Proof.
  intros Hb. destruct (HealthCheck_keeps_backend ticks lb i b Hb) as [b1 Hb1].
  exists (probeBackend (get i) b1).
  rewrite HealthCheck_snoc, healthCheckTick_lookup, Hb1.
  split; [done|]. unfold probeBackend.
  by destruct (probe_failed (get i)).
Qed.

Lemma liveness_follows_last_probe_witness :
  let down := fun _ : nat => ProbeResponse 503 in
  let up := fun _ : nat => ProbeResponse 200 in
  backends lb3 !! 2%nat
  = Some (mkBackend "http://localhost:8083" false true 0 0)
  /\ exists b',
       backends (HealthCheck ([down; down] ++ [up]) lb3) !! 2%nat = Some b'
       /\ IsAlive b' = negb (probe_failed (up 2%nat))
       /\ (probe_failed (up 2%nat) = false -> failCount b' = 0).
Proof.
  intros down up.
  assert (Hb : backends lb3 !! 2%nat
               = Some (mkBackend "http://localhost:8083" false true 0 0))
    by reflexivity.
  split; [exact Hb|].
  exact (liveness_follows_last_probe [down; down] up lb3 2 _ Hb).
Defined.

(** X14. One tick of the health check updates every backend exactly once,
    each by the outcome of its own probe, and nothing else: the pool keeps
    its size and order, the cursor and every [URL], [IsAdmin] and
    [RequestCount] stay as they were. *)
Theorem healthCheckTick_updates_each_once
        (get : nat -> probe_result) (lb : LoadBalancer) :
  healthCheckTick get lb
  = set_backends (imap (fun i b => probeBackend (get i) b) (backends lb)) lb
  /\ (fun b => (URL b, IsAdmin b, RequestCount b))
       <$> backends (healthCheckTick get lb)
     = (fun b => (URL b, IsAdmin b, RequestCount b)) <$> backends lb.
Proof.
  assert (Hbs : backends (healthCheckTick get lb)
                = imap (fun i b => probeBackend (get i) b) (backends lb)).
  { apply list_eq. intros i.
    by rewrite healthCheckTick_lookup, list_lookup_imap. }
  split.
  - pose proof (healthCheckTick_cursor get lb) as Hc.
    destruct (healthCheckTick get lb) as [bs c].
    unfold set_backends. simpl in *. by subst.
  - rewrite Hbs. apply list_eq. intros i.
    rewrite !list_lookup_fmap, list_lookup_imap.
    destruct (backends lb !! i) as [b|]; [|done]. simpl.
    unfold probeBackend. by destruct (probe_failed (get i)).
Qed.

(** ** What routing reads *)

Lemma index_alive_ext (bs bs' : list Backend) (idx : Z) :
  IsAlive <$> bs = IsAlive <$> bs' ->
  IsAlive <$> index bs idx = IsAlive <$> index bs' idx.
Proof.
  intros Heq. unfold index. destruct (idx <? 0); [done|].
  by rewrite <- !list_lookup_fmap, Heq.
Qed.

Lemma scanBackends_alive_ext (bs bs' : list Backend) nextIndex i todo :
  IsAlive <$> bs = IsAlive <$> bs' ->
  scanBackends bs nextIndex i todo = scanBackends bs' nextIndex i todo.
Proof.
  intros Heq.
  assert (Hlen : len bs = len bs').
  { unfold len. by rewrite <- (length_fmap IsAlive bs), Heq, length_fmap. }
  revert i. induction todo as [|todo IH]; intros i; simpl; [done|].
  rewrite Hlen. destruct (go_rem _ _) as [idx|]; [|done].
  pose proof (index_alive_ext bs bs' idx Heq) as Hidx.
  destruct (index bs idx) as [b|], (index bs' idx) as [b'|]; try done.
  simpl in Hidx. injection Hidx as ->.
  destruct (IsAlive b'); [done|apply IH].
Qed.

(** X15. Routing reads the liveness flags and the cursor and nothing else:
    two balancers that agree on every [IsAlive] and on the cursor route
    every role to the same backend, whatever their request counts, failure
    counts and URLs. *)
Theorem routing_reads_liveness_and_cursor
        (role : string) (lb lb' : LoadBalancer) :
  IsAlive <$> backends lb = IsAlive <$> backends lb' ->
  roundRobinCount lb = roundRobinCount lb' ->
  returned (getBackendForRequest role lb)
  = returned (getBackendForRequest role lb').
Proof.
  intros Hlive Hc. unfold getBackendForRequest.
  assert (Hlen : len (backends lb) = len (backends lb')).
  { unfold len.
    by rewrite <- (length_fmap IsAlive (backends lb)), Hlive, length_fmap. }
  destruct (String.eqb role "Admin").
  - pose proof (index_alive_ext _ _ 0 Hlive) as H0.
    destruct (index (backends lb) 0) as [b|],
      (index (backends lb') 0) as [b'|]; try done.
    simpl in H0. injection H0 as ->. by destruct (IsAlive b').
  - cbv zeta. cbn [backends set_roundRobinCount].
    rewrite Hc, Hlen. destruct (go_rem _ _) as [r|]; [|done].
    rewrite (scanBackends_alive_ext _ _ _ _ _ Hlive).
    assert (Hl : length (backends lb) = length (backends lb'))
      by (unfold len in Hlen; lia).
    rewrite Hl. by destruct (scanBackends _ _ _ _).
Qed.

Lemma routing_reads_liveness_and_cursor_witness :
  let busy := set_backends (alter incRequestCount 0%nat
                              (alter incRequestCount 2%nat (backends lb3)))
                           lb3 in
  IsAlive <$> backends lb3 = IsAlive <$> backends busy
  /\ roundRobinCount lb3 = roundRobinCount busy
  /\ returned (getBackendForRequest "User" lb3)
     = returned (getBackendForRequest "User" busy).
Proof.
  intros busy.
  assert (Hlive : IsAlive <$> backends lb3 = IsAlive <$> backends busy)
    by reflexivity.
  assert (Hc : roundRobinCount lb3 = roundRobinCount busy) by reflexivity.
  split; [exact Hlive|]. split; [exact Hc|].
  exact (routing_reads_liveness_and_cursor "User" lb3 busy Hlive Hc).
Defined.
